(** * AI Automation Creator: the front-end panels

    A shallow embedding of the custom element [AiAutomationCreator] in the
    variants the repository holds:

    - [Panel]:  the [HTMLElement] panel at the head of
      custom_components/ai_automation_creator/www/main.js, with one
      free-text field ([generateAutomation], [handleError], [reset]);
    - [Guided]: the [LitElement] card that asks five questions
      ([handleSend], [createAutomation], [startOver],
      [renderConversation]), in its two copies: the one in the second half
      of main.js and the one without [requestUpdate];
    - [Prompt]: the [LitElement] panel with one free-text field whose
      result view also shows errors ([createAutomation], [startOver]).

    JavaScript strings are modelled as [string], read as sequences of
    code units below 256.  An event handler runs to completion; what it
    asks of the host (service calls, timers, renderings) is recorded in a
    trace, and the host's answers come from a [Host] record.  A submission
    is run from its handler to its last listener with no other handler in
    between; the fields while the creation call is pending are those the
    [_begin] functions return. *)

From Stdlib Require Import ZArith Lia.
From stdpp Require Import base list strings.

Local Open Scope Z_scope.
Local Open Scope nat_scope.

(** ** JavaScript values and operators used by the panels *)

Module Js.

(** The line feed written [\n] in a template literal. *)
Definition nl : string := String (Ascii.ascii_of_nat 10) EmptyString.

(** White space and line terminators of [String.prototype.trim] among the
    code units below 256: TAB, LF, VT, FF, CR, SPACE and NBSP. *)
Definition is_white_space (c : Ascii.ascii) : bool :=
  let n := Ascii.nat_of_ascii c in
  (Nat.leb 9 n && Nat.leb n 13) || Nat.eqb n 32 || Nat.eqb n 160.

Fixpoint trimStart (s : string) : string :=
  match s with
  | EmptyString => EmptyString
  | String c rest => if is_white_space c then trimStart rest else s
  end.

(** [trimEnd s] drops the white space at the end: a character is kept
    when it is not white space or something after it is kept. *)
Fixpoint trimEnd (s : string) : string :=
  match s with
  | EmptyString => EmptyString
  | String c rest =>
      match trimEnd rest with
      | EmptyString => if is_white_space c then EmptyString else String c EmptyString
      | kept => String c kept
      end
  end.

Definition trim (s : string) : string := trimEnd (trimStart s).

(** Every character of the string is white space. *)
Fixpoint all_white_space (s : string) : bool :=
  match s with
  | EmptyString => true
  | String c rest => is_white_space c && all_white_space rest
  end.

(** [ToBoolean] on a string: only the empty string is falsy. *)
Definition truthy (s : string) : bool :=
  match s with
  | EmptyString => false
  | String _ _ => true
  end.

(** [a || b] on an optional string ([undefined] and the empty string are
    falsy). *)
Definition or_else (a : option string) (b : string) : string :=
  match a with
  | Some x => if truthy x then x else b
  | None => b
  end.

(** String concatenation with a value that may be [undefined]. *)
Definition to_string (a : option string) : string :=
  match a with
  | Some x => x
  | None => "undefined"
  end.

Fixpoint startsWith (s pre : string) : bool :=
  match pre, s with
  | EmptyString, _ => true
  | String p pre', String c s' => if Ascii.eqb c p then startsWith s' pre' else false
  | String _ _, EmptyString => false
  end.

(** [s.includes(sub)] *)
Fixpoint includes (s sub : string) : bool :=
  startsWith s sub ||
  match s with
  | EmptyString => false
  | String _ s' => includes s' sub
  end.

(** An [Error] object, of which the panels read [message] only. *)
Record Error := { message : option string }.

(** The value a service call resolves with: [undefined], or an object
    whose [yaml] property may be missing. *)
Record Response := { yaml : option string }.
Definition Result := option Response.

(** [result && result.yaml], as a condition and as the value then read. *)
Definition result_yaml (r : Result) : option string :=
  match r with
  | Some {| yaml := Some y |} => if truthy y then Some y else None
  | _ => None
  end.

Inductive Settled (A : Type) : Type :=
| Fulfilled (a : A)
| Rejected (e : Error).
Arguments Fulfilled {A} a.
Arguments Rejected {A} e.

(** Exceptions raised by the handlers themselves. *)
Inductive Exception := TypeError.

Inductive Completion (A : Type) : Type :=
| Normal (a : A)
| Abrupt (e : Exception).
Arguments Normal {A} a.
Arguments Abrupt {A} e.

(** What a handler asks of its environment, in order. *)
Inductive Event (V : Type) : Type :=
| CallService (domain service : string) (description : option string)
| CallApi (method path : string)
| SetTimeout (ms : nat)
| Render (v : V).
Arguments CallService {V} domain service description.
Arguments CallApi {V} method path.
Arguments SetTimeout {V} ms.
Arguments Render {V} v.

Definition is_call {V} (service : string) (e : Event V) : bool :=
  match e with
  | CallService _ sv _ => String.eqb sv service
  | _ => false
  end.

Definition is_timeout {V} (e : Event V) : bool :=
  match e with
  | SetTimeout _ => true
  | _ => false
  end.

Definition calls {V} (service : string) (t : list (Event V)) : nat :=
  length (filter (λ e, is_call service e = true) t).

Definition timeouts {V} (t : list (Event V)) : nat :=
  length (filter (λ e, is_timeout e = true) t).

End Js.

(** ** The guided card: five questions, then one creation call *)

Module Guided.
Import Js.

Inductive Sender := user | assistant.

Record Message := { sender : Sender; content : string }.

Record Step := { question : string; answer : string }.

Record State := {
  conversation : list Message;
  userInput : string;
  isProcessing : bool;
  automationYaml : string;
  automationCreated : bool;
  currentStep : nat;
  automationSteps : list Step
}.

Definition set_conversation (v : list Message) (s : State) : State :=
  {| conversation := v; userInput := userInput s; isProcessing := isProcessing s;
     automationYaml := automationYaml s; automationCreated := automationCreated s;
     currentStep := currentStep s; automationSteps := automationSteps s |}.

Definition set_userInput (v : string) (s : State) : State :=
  {| conversation := conversation s; userInput := v; isProcessing := isProcessing s;
     automationYaml := automationYaml s; automationCreated := automationCreated s;
     currentStep := currentStep s; automationSteps := automationSteps s |}.

Definition set_isProcessing (v : bool) (s : State) : State :=
  {| conversation := conversation s; userInput := userInput s; isProcessing := v;
     automationYaml := automationYaml s; automationCreated := automationCreated s;
     currentStep := currentStep s; automationSteps := automationSteps s |}.

Definition set_automationYaml (v : string) (s : State) : State :=
  {| conversation := conversation s; userInput := userInput s; isProcessing := isProcessing s;
     automationYaml := v; automationCreated := automationCreated s;
     currentStep := currentStep s; automationSteps := automationSteps s |}.

Definition set_automationCreated (v : bool) (s : State) : State :=
  {| conversation := conversation s; userInput := userInput s; isProcessing := isProcessing s;
     automationYaml := automationYaml s; automationCreated := v;
     currentStep := currentStep s; automationSteps := automationSteps s |}.

Definition set_currentStep (v : nat) (s : State) : State :=
  {| conversation := conversation s; userInput := userInput s; isProcessing := isProcessing s;
     automationYaml := automationYaml s; automationCreated := automationCreated s;
     currentStep := v; automationSteps := automationSteps s |}.

Definition set_automationSteps (v : list Step) (s : State) : State :=
  {| conversation := conversation s; userInput := userInput s; isProcessing := isProcessing s;
     automationYaml := automationYaml s; automationCreated := automationCreated s;
     currentStep := currentStep s; automationSteps := v |}.

Definition set_answer (v : string) (st : Step) : Step :=
  {| question := question st; answer := v |}.

(** The two copies of the card differ in one place: main.js handles a
    rejected [callApi], the other copy does not. *)
Inductive Variant := Card | PanelCopy.

(** [constructor()] *)
Definition constructor : State :=
  {| conversation := [];
     userInput := "";
     isProcessing := false;
     automationYaml := "";
     automationCreated := false;
     currentStep := 0;
     automationSteps :=
       [ {| question := "What would you like this automation to do? (Describe in natural language)"; answer := "" |};
         {| question := "When should this automation trigger? (Time, event, condition, etc.)"; answer := "" |};
         {| question := "Which devices or entities should be involved?"; answer := "" |};
         {| question := "Are there any conditions that should be met before the automation runs?"; answer := "" |};
         {| question := "Is there anything else I should know about this automation?"; answer := "" |} ] |}.

(** [connectedCallback()]: the first question opens the conversation.
    main.js seeds only an empty conversation. *)
Definition connectedCallback (v : Variant) (s : State) : Completion unit * State :=
  match v, conversation s with
  | PanelCopy, _ :: _ => (Normal (), s)
  | _, _ =>
      match automationSteps s !! 0 with
      | Some st => (Normal (), set_conversation [ {| sender := assistant; content := question st |} ] s)
      | None => (Abrupt TypeError, s)
      end
  end.

(** The [@input] listener of the text area. *)
Definition onInput (value : string) (s : State) : State := set_userInput value s.

(** [handleSend()] *)
Definition handleSend (s : State) : Completion unit * State :=
  if negb (truthy (trim (userInput s))) then (Normal (), s)
  else
    let s1 := set_conversation
                (conversation s ++ [ {| sender := user; content := userInput s |} ]) s in
    match automationSteps s1 !! currentStep s1 with
    | None => (Abrupt TypeError, s1)
    | Some st =>
        let s2 := set_automationSteps
                    (<[currentStep s1 := set_answer (userInput s1) st]> (automationSteps s1)) s1 in
        let s3 := set_userInput "" s2 in
        if (Z.of_nat (currentStep s3) <? Z.of_nat (length (automationSteps s3)) - 1)%Z
        then
          let s4 := set_currentStep (currentStep s3 + 1) s3 in
          match automationSteps s4 !! currentStep s4 with
          | None => (Abrupt TypeError, s4)
          | Some next =>
              (Normal (),
               set_conversation
                 (conversation s4 ++ [ {| sender := assistant; content := question next |} ]) s4)
          end
        else (Normal (), set_currentStep (length (automationSteps s3)) s3)
    end.

(** The loop of [createAutomation] that builds the description:
    [fullDescription += `${step.question}\n${step.answer}\n\n`]. *)
Definition fullDescription (steps : list Step) : string :=
  fold_left
    (λ acc step, acc +:+ (question step +:+ nl +:+ answer step +:+ nl +:+ nl))
    steps "".

Definition created_message : string :=
  "I've created your automation! You can find it in your automations.yaml file or in the automation editor.".

Definition error_prefix : string :=
  "Sorry, there was an error creating your automation: ".

Definition no_yaml_message : string :=
  "Automation created successfully, but couldn't retrieve the YAML.".

(** The card asks for service and API calls only. *)
Definition Trace := list (Event unit).

(** [createAutomation()], up to the point where the creation call is
    pending. *)
Definition createAutomation_begin (s : State) : State * Trace :=
  let s1 := set_isProcessing true s in
  (s1, [ CallService "ai_automation_creator" "create_automation"
           (Some (fullDescription (automationSteps s1))) ]).

(** The listeners of [callApi(...)]; the host hands [JSON.stringify] of
    the automation it returns. *)
Definition onApiSettled (v : Variant) (api : Settled string) (s : State) : State :=
  match api, v with
  | Fulfilled json, _ => set_automationYaml json s
  | Rejected _, PanelCopy => set_automationYaml no_yaml_message s
  | Rejected _, Card => s
  end.

(** The fulfilment listener of the creation call, together with the
    [callApi] it starts. *)
Definition onCreated (v : Variant) (api : Settled string) (s : State) : State * Trace :=
  let s1 := set_conversation
              (conversation s ++ [ {| sender := assistant; content := created_message |} ]) s in
  let s2 := set_automationCreated true s1 in
  let s3 := set_isProcessing false s2 in
  (onApiSettled v api s3, [ CallApi "GET" "config/automation/config/0" ]).

(** The rejection listener of the creation call. *)
Definition onCreateRejected (e : Error) (s : State) : State :=
  let s1 := set_conversation
              (conversation s ++
               [ {| sender := assistant; content := error_prefix +:+ to_string (message e) |} ]) s in
  set_isProcessing false s1.

Record Host := {
  create_automation : string → Settled Result;
  automation_config : Settled string
}.

(** One whole submission: [createAutomation()] and the listeners that
    run when the host answers. *)
Definition createAutomation (v : Variant) (h : Host) (s : State) : State * Trace :=
  let '(s1, t1) := createAutomation_begin s in
  match create_automation h (fullDescription (automationSteps s1)) with
  | Fulfilled _ =>
      let '(s2, t2) := onCreated v (automation_config h) s1 in (s2, t1 ++ t2)
  | Rejected e => (onCreateRejected e s1, t1)
  end.

(** [startOver()] *)
Definition startOver (s : State) : Completion unit * State :=
  let s1 := set_conversation [] s in
  let s2 := set_userInput "" s1 in
  let s3 := set_automationYaml "" s2 in
  let s4 := set_automationCreated false s3 in
  let s5 := set_currentStep 0 s4 in
  let s6 := set_automationSteps (map (set_answer "") (automationSteps s5)) s5 in
  match automationSteps s6 !! 0 with
  | None => (Abrupt TypeError, s6)
  | Some st =>
      (Normal (), set_conversation [ {| sender := assistant; content := question st |} ] s6)
  end.

(** What [renderConversation()] puts below the messages. *)
Inductive Prompting :=
| Processing
| CurrentQuestion (text : string) (value : string) (sendDisabled : bool).

Record ConversationView := {
  messages : list Message;
  prompting : Prompting;
  (** [Some disabled] when the Create Automation button is rendered *)
  createButton : option bool
}.

Inductive View :=
| Conversation (c : ConversationView)
| ResultView (yaml : string).

(** [renderConversation()] *)
Definition renderConversation (s : State) : Completion ConversationView :=
  let shown := conversation s in
  let below :=
    if isProcessing s then Normal Processing
    else match automationSteps s !! currentStep s with
         | None => Abrupt TypeError
         | Some st => Normal (CurrentQuestion (question st) (userInput s) (negb (truthy (userInput s))))
         end in
  match below with
  | Abrupt e => Abrupt e
  | Normal p =>
      Normal {| messages := shown;
                prompting := p;
                createButton :=
                  if (Z.of_nat (length (automationSteps s)) <=? Z.of_nat (currentStep s))%Z
                  then Some (isProcessing s) else None |}
  end.

(** [render()], with the host object present. *)
Definition render (s : State) : Completion View :=
  if automationCreated s then Normal (ResultView (automationYaml s))
  else match renderConversation s with
       | Normal c => Normal (Conversation c)
       | Abrupt e => Abrupt e
       end.

(** The handlers and listeners that write the card's fields, and the
    card's fields after each (also when it ends on an exception). *)
Inductive Handler :=
| ConnectedCallback (v : Variant)
| OnInput (value : string)
| HandleSend
| CreateAutomation (v : Variant) (h : Host)
| StartOver.

Definition run (m : Handler) (s : State) : State :=
  match m with
  | ConnectedCallback v => snd (connectedCallback v s)
  | OnInput value => onInput value s
  | HandleSend => snd (handleSend s)
  | CreateAutomation v h => fst (createAutomation v h s)
  | StartOver => snd (startOver s)
  end.

Definition runs (ms : list Handler) (s : State) : State :=
  fold_left (λ acc m, run m acc) ms s.

(** The text sent for one step: the question, the answer, a blank line. *)
Definition block (st : Step) : string :=
  question st +:+ nl +:+ answer st +:+ nl +:+ nl.

(** All the blocks, in step order. *)
Definition blocks (steps : list Step) : string :=
  foldr (λ st rest, block st +:+ rest) "" steps.

(** A card whose five questions have been answered. *)
Definition answered : State :=
  runs [ ConnectedCallback Card;
         OnInput "Turn on the porch light"; HandleSend;
         OnInput "At sunset"; HandleSend;
         OnInput "light.porch"; HandleSend;
         OnInput "Only when nobody is home"; HandleSend;
         OnInput "No"; HandleSend ] constructor.

End Guided.

(** ** Promise chains

    A chain of [.then] and [.catch] listeners, run against a host that
    answers every call: a computation over the component's fields and the
    trace that is either fulfilled or rejected. *)

Module Promise.
Import Js.

Section Chain.
Context {St V : Type}.

Record World := { component : St; trace : list (Event V) }.

Definition Promise (A : Type) : Type := World → Settled A * World.

Definition resolve {A} (a : A) : Promise A := λ w, (Fulfilled a, w).

Definition reject {A} (e : Error) : Promise A := λ w, (Rejected e, w).

(** [p.then(f)] *)
Definition and_then {A B} (p : Promise A) (f : A → Promise B) : Promise B :=
  λ w, match p w with
       | (Fulfilled a, w') => f a w'
       | (Rejected e, w') => (Rejected e, w')
       end.

(** [p.catch(h)] *)
Definition catch {A} (p : Promise A) (h : Error → Promise A) : Promise A :=
  λ w, match p w with
       | (Fulfilled a, w') => (Fulfilled a, w')
       | (Rejected e, w') => h e w'
       end.

Definition emit (e : Event V) : Promise unit :=
  λ w, (Fulfilled (), {| component := component w; trace := trace w ++ [e] |}).

Definition get : Promise St := λ w, (Fulfilled (component w), w).

Definition modify (f : St → St) : Promise unit :=
  λ w, (Fulfilled (), {| component := f (component w); trace := trace w |}).

(** The calls made so far to one service. *)
Definition called (service : string) : Promise nat :=
  λ w, (Fulfilled (calls service (trace w)), w).

(** The host's answer, handed to the chain. *)
Definition settle {A} (r : Settled A) : Promise A := λ w, (r, w).

End Chain.

Arguments World : clear implicits.
Arguments Promise : clear implicits.

End Promise.

Declare Scope promise_scope.
Delimit Scope promise_scope with promise.
Notation "x ← y ; z" := (Promise.and_then y (λ x, z))
  (at level 20, y at level 100, z at level 200, only parsing) : promise_scope.
Notation "x ;; z" := (Promise.and_then x (λ _, z))
  (at level 100, z at level 200, only parsing, right associativity) : promise_scope.

(** ** The panel of main.js: one free-text field, creation, then fetch *)

Module Panel.
Import Js Promise.

Record State := {
  userInput : string;
  isProcessing : bool;
  automationYaml : string;
  automationCreated : bool;
  (** [null] is [None] *)
  errorMessage : option string
}.

Definition set_userInput (v : string) (s : State) : State :=
  {| userInput := v; isProcessing := isProcessing s; automationYaml := automationYaml s;
     automationCreated := automationCreated s; errorMessage := errorMessage s |}.

Definition set_isProcessing (v : bool) (s : State) : State :=
  {| userInput := userInput s; isProcessing := v; automationYaml := automationYaml s;
     automationCreated := automationCreated s; errorMessage := errorMessage s |}.

Definition set_automationYaml (v : string) (s : State) : State :=
  {| userInput := userInput s; isProcessing := isProcessing s; automationYaml := v;
     automationCreated := automationCreated s; errorMessage := errorMessage s |}.

Definition set_automationCreated (v : bool) (s : State) : State :=
  {| userInput := userInput s; isProcessing := isProcessing s; automationYaml := automationYaml s;
     automationCreated := v; errorMessage := errorMessage s |}.

Definition set_errorMessage (v : option string) (s : State) : State :=
  {| userInput := userInput s; isProcessing := isProcessing s; automationYaml := automationYaml s;
     automationCreated := automationCreated s; errorMessage := v |}.

(** [constructor()] *)
Definition constructor : State :=
  {| userInput := ""; isProcessing := false; automationYaml := "";
     automationCreated := false; errorMessage := None |}.

(** What [render()] writes below the title, the host object being
    present. *)
Inductive View :=
| Form (value : string) (buttonDisabled : bool) (buttonLabel : string) (error : option string)
| ResultView (yaml : string).

(** [renderForm()] *)
Definition renderForm (s : State) : View :=
  Form (userInput s)
       (isProcessing s || negb (truthy (userInput s)))
       (if isProcessing s then "Creating..." else "Create Automation")
       (match errorMessage s with
        | Some m => if truthy m then Some m else None
        | None => None
        end).

(** [renderResult()] *)
Definition renderResult (s : State) : View := ResultView (automationYaml s).

Definition view (s : State) : View :=
  if automationCreated s then renderResult s else renderForm s.

(** The host: its answer to the creation call for a description, its
    answer to the k-th call of [get_automation_yaml] (from 0), and the
    keys of the object [hass.states], which [Object.keys] lists without
    raising. *)
Record Host := {
  create_automation : string → Settled Result;
  get_automation_yaml : nat → Settled Result;
  states : list string
}.

Abbreviation Chain := (Promise State View).

(** [this.render()] *)
Definition render : Chain unit :=
  (s ← get; emit (Render (view s)))%promise.

(** [this._hass.callService("ai_automation_creator", "create_automation", {description})],
    the call itself; the host's answer reaches the listeners later. *)
Definition callCreate (description : string) : Chain unit :=
  emit (CallService "ai_automation_creator" "create_automation" (Some description)).

(** [this._hass.callService("ai_automation_creator", "get_automation_yaml", {})] *)
Definition callGetYaml (h : Host) : Chain Result :=
  (k ← called "get_automation_yaml";
   emit (CallService "ai_automation_creator" "get_automation_yaml" None);;
   settle (get_automation_yaml h k))%promise.

(** [new Promise(resolve => setTimeout(resolve, ms))] *)
Definition setTimeout (ms : nat) : Chain unit := emit (SetTimeout ms).

Definition generic_error : string := "Failed to create automation".

(** [handleError(error)] *)
Definition handleError (error : Error) : Chain unit :=
  (modify (set_isProcessing false);;
   modify (set_errorMessage (Some ("Error: " +:+ or_else (message error) generic_error)));;
   render)%promise.

Definition success_marker : string := "persistent_notification.ai_automation_creator_success".

Definition confirmed_message : string :=
  "Automation was created successfully and added to your automations.yaml file.".

Definition processed_message : string :=
  "Automation has been processed. Please check your automations.yaml file.".

(** The listener of the delayed second [get_automation_yaml]. *)
Definition onSecondResult (confirmed : bool) (result : Result) : Chain unit :=
  (modify (set_automationYaml
             (match result_yaml result with
              | Some y => y
              | None => if confirmed then confirmed_message else processed_message
              end));;
   modify (set_isProcessing false);;
   modify (set_automationCreated true);;
   render)%promise.

(** The listener of the first [get_automation_yaml]. *)
Definition onFirstResult (h : Host) (result : Result) : Chain unit :=
  match result_yaml result with
  | Some y =>
      (modify (set_automationYaml y);;
       modify (set_isProcessing false);;
       modify (set_automationCreated true);;
       render)%promise
  | None =>
      (setTimeout 1000;;
       let confirmed := existsb (λ key, includes key success_marker) (states h) in
       catch (result2 ← callGetYaml h; onSecondResult confirmed result2)
             handleError)%promise
  end.

(** The listeners chained on the creation call, run once the host has
    answered it. *)
Definition listeners (h : Host) (description : string) : Chain unit :=
  catch (_ ← settle (create_automation h description);
         setTimeout 2000;;
         result ← callGetYaml h;
         onFirstResult h result)%promise
        handleError.

(** The first line of [generateAutomation()]. *)
Definition refused (s : State) : bool :=
  negb (truthy (trim (userInput s))) || isProcessing s.

(** [generateAutomation()], up to the point where the creation call is
    pending. *)
Definition generateAutomation_begin (s : State) : World State View :=
  if refused s then {| component := s; trace := [] |}
  else
    snd ((modify (set_isProcessing true);;
          modify (set_errorMessage None);;
          render;;
          s' ← get;
          callCreate (userInput s'))%promise {| component := s; trace := [] |}).

(** [generateAutomation()] and the listeners of its chain, run against
    the host. *)
Definition generateAutomation (h : Host) (s : State) : World State View :=
  if refused s then {| component := s; trace := [] |}
  else
    let pending := generateAutomation_begin s in
    snd (listeners h (userInput (component pending)) pending).

(** [reset()] *)
Definition reset (s : State) : World State View :=
  let s1 := set_userInput "" s in
  let s2 := set_automationYaml "" s1 in
  let s3 := set_automationCreated false s2 in
  let s4 := set_errorMessage None s3 in
  snd (render {| component := s4; trace := [] |}).

(** A form in which a description has been typed. *)
Definition typed : State := set_userInput "Turn on the porch light at sunset" constructor.

(** A host whose creation call already resolves with a text, and whose
    [get_automation_yaml] resolves with another. *)
Definition eager_host : Host :=
  {| create_automation := λ _, Fulfilled (Some {| yaml := Some "alias: from create_automation" |});
     get_automation_yaml := λ _, Fulfilled (Some {| yaml := Some "alias: from get_automation_yaml" |});
     states := [] |}.

(** A host that never has a text to give. *)
Definition silent_host : Host :=
  {| create_automation := λ _, Fulfilled None;
     get_automation_yaml := λ _, Fulfilled None;
     states := [ "sun.sun"; "persistent_notification.ai_automation_creator_success" ] |}.

(** A host that refuses the creation call. *)
Definition refusing_host : Host :=
  {| create_automation := λ _, Rejected {| message := Some "quota exceeded" |};
     get_automation_yaml := λ _, Fulfilled None;
     states := [] |}.

End Panel.

(** ** The prompt panel: one free-text field, results and errors in one view *)

Module Prompt.
Import Js.

Record State := {
  userInput : string;
  isProcessing : bool;
  automationYaml : string;
  automationCreated : bool;
  resultMessage : string
}.

Definition set_userInput (v : string) (s : State) : State :=
  {| userInput := v; isProcessing := isProcessing s; automationYaml := automationYaml s;
     automationCreated := automationCreated s; resultMessage := resultMessage s |}.

Definition set_isProcessing (v : bool) (s : State) : State :=
  {| userInput := userInput s; isProcessing := v; automationYaml := automationYaml s;
     automationCreated := automationCreated s; resultMessage := resultMessage s |}.

Definition set_automationYaml (v : string) (s : State) : State :=
  {| userInput := userInput s; isProcessing := isProcessing s; automationYaml := v;
     automationCreated := automationCreated s; resultMessage := resultMessage s |}.

Definition set_automationCreated (v : bool) (s : State) : State :=
  {| userInput := userInput s; isProcessing := isProcessing s; automationYaml := automationYaml s;
     automationCreated := v; resultMessage := resultMessage s |}.

Definition set_resultMessage (v : string) (s : State) : State :=
  {| userInput := userInput s; isProcessing := isProcessing s; automationYaml := automationYaml s;
     automationCreated := automationCreated s; resultMessage := v |}.

(** [constructor()] *)
Definition constructor : State :=
  {| userInput := ""; isProcessing := false; automationYaml := "";
     automationCreated := false; resultMessage := "" |}.

(** The host: its answer to the creation call, whether
    [hass.states["persistent_notification.ai_automation_creator_success"]]
    is there, and [hass.data?.ai_automation_creator?.latest_automation]. *)
Record Host := {
  create_automation : string → Settled Result;
  success_notification : bool;
  latest_automation : option string
}.

Definition Trace := list (Event unit).

Inductive View :=
| PromptView (value : string) (buttonDisabled : bool) (processing : bool)
| ResultView (message : string) (yaml : string).

(** [renderPrompt()] *)
Definition renderPrompt (s : State) : View :=
  PromptView (userInput s) (negb (truthy (userInput s))) (isProcessing s).

(** [renderResult()] *)
Definition renderResult (s : State) : View :=
  ResultView (resultMessage s) (automationYaml s).

(** [render()], with the host object present. *)
Definition render (s : State) : View :=
  if automationCreated s then renderResult s else renderPrompt s.

Definition created_message : string :=
  "Automation created successfully! You can find it in your automations.yaml file or in the automation editor.".

Definition yaml_elsewhere : string :=
  "Automation created successfully. The YAML is available in your Home Assistant automations.yaml file.".

Definition failed_yaml : string :=
  "Failed to create automation. Please try again with a more detailed description.".

(** [createAutomation()], up to the point where the creation call is
    pending. *)
Definition createAutomation_begin (s : State) : State * Trace :=
  if negb (truthy (trim (userInput s))) then (s, [])
  else
    let s1 := set_isProcessing true s in
    (s1, [ CallService "ai_automation_creator" "create_automation" (Some (trim (userInput s1))) ]).

(** The fulfilment listener of the creation call. *)
Definition onCreated (h : Host) (s : State) : State :=
  let s1 := set_resultMessage created_message s in
  let s2 := set_isProcessing false s1 in
  let s3 := set_automationCreated true s2 in
  if success_notification h
  then set_automationYaml (or_else (latest_automation h) yaml_elsewhere) s3
  else set_automationYaml (or_else (latest_automation h) yaml_elsewhere) s3.

(** The rejection listener of the creation call. *)
Definition onCreateRejected (error : Error) (s : State) : State :=
  let s1 := set_resultMessage
              ("Error creating automation: " +:+ or_else (message error) "Unknown error") s in
  let s2 := set_isProcessing false s1 in
  let s3 := set_automationCreated true s2 in
  set_automationYaml failed_yaml s3.

(** [createAutomation()] and the listener that runs when the host
    answers. *)
Definition createAutomation (h : Host) (s : State) : State * Trace :=
  if negb (truthy (trim (userInput s))) then (s, [])
  else
    let '(s1, t1) := createAutomation_begin s in
    match create_automation h (trim (userInput s1)) with
    | Fulfilled _ => (onCreated h s1, t1)
    | Rejected e => (onCreateRejected e s1, t1)
    end.

(** A click on Create Automation runs [createAutomation] unless the
    button is disabled. *)
Definition click (s : State) : State * Trace :=
  match render s with
  | PromptView _ false _ => createAutomation_begin s
  | _ => (s, [])
  end.

(** [startOver()] *)
Definition startOver (s : State) : State :=
  let s1 := set_userInput "" s in
  let s2 := set_automationYaml "" s1 in
  let s3 := set_automationCreated false s2 in
  set_resultMessage "" s3.

(** A prompt in which a description has been typed. *)
Definition typed : State := set_userInput "Turn on the porch light at sunset" constructor.

(** A host that refuses the creation call. *)
Definition refusing_host : Host :=
  {| create_automation := λ _, Rejected {| message := Some "quota exceeded" |};
     success_notification := false;
     latest_automation := None |}.

End Prompt.

(** ** The form panel: creation, fetch, then a look at [hass.data]

    The [LitElement] panel with one free-text field and an error field.
    Its fields are those of [Panel.State] and its two views those of
    [Panel.view]; it asks for no rendering itself. *)

Module FormPanel.
Import Js Promise.

(** The host: its answers to the two service calls and
    [hass.data.ai_automation_creator.latest_automation], [None] when a
    link of that path is missing. *)
Record Host := {
  create_automation : string → Settled Result;
  get_automation_yaml : Settled Result;
  latest_automation : option string
}.

Abbreviation Chain := (Promise Panel.State Panel.View).

Definition fallback_yaml : string :=
  "Automation created successfully. Check your Home Assistant automations list.".

(** The function handed to [setTimeout]. *)
Definition onTimeout (h : Host) : Chain unit :=
  (modify (Panel.set_automationYaml (or_else (latest_automation h) fallback_yaml));;
   modify (Panel.set_isProcessing false);;
   modify (Panel.set_automationCreated true))%promise.

(** The [.catch] listener. *)
Definition onError (error : Error) : Chain unit :=
  (modify (Panel.set_isProcessing false);;
   modify (Panel.set_errorMessage
             (Some ("Error: " +:+ or_else (message error) "Failed to create automation"))))%promise.

(** [this.hass.callService("ai_automation_creator", "get_automation_yaml", {})] *)
Definition callGetYaml (h : Host) : Chain Result :=
  (emit (CallService "ai_automation_creator" "get_automation_yaml" None);;
   settle (get_automation_yaml h))%promise.

(** The listeners chained on the creation call. *)
Definition listeners (h : Host) (description : string) : Chain unit :=
  catch (_ ← settle (create_automation h description);
         _ ← callGetYaml h;
         emit (SetTimeout 500);;
         onTimeout h)%promise
        onError.

(** [generateAutomation()], up to the point where the creation call is
    pending. *)
Definition generateAutomation_begin (s : Panel.State) : World Panel.State Panel.View :=
  if negb (truthy (trim (Panel.userInput s))) then {| component := s; trace := [] |}
  else
    snd ((modify (Panel.set_isProcessing true);;
          modify (Panel.set_errorMessage None);;
          s' ← get;
          emit (CallService "ai_automation_creator" "create_automation"
                  (Some (Panel.userInput s'))))%promise {| component := s; trace := [] |}).

(** [generateAutomation()] and its listeners, run against the host. *)
Definition generateAutomation (h : Host) (s : Panel.State) : World Panel.State Panel.View :=
  if negb (truthy (trim (Panel.userInput s))) then {| component := s; trace := [] |}
  else
    let pending := generateAutomation_begin s in
    snd (listeners h (Panel.userInput (component pending)) pending).

(** [reset()] *)
Definition reset (s : Panel.State) : Panel.State :=
  let s1 := Panel.set_userInput "" s in
  let s2 := Panel.set_automationYaml "" s1 in
  let s3 := Panel.set_automationCreated false s2 in
  Panel.set_errorMessage None s3.

End FormPanel.

(** ** The host object of the panel of main.js

    The [hass] setter, the listener of [hass-connect] and the first branch
    of [render()]. *)

Module Shell.
Import Js.

Record Element := {
  _hass : option Panel.Host;
  (** [undefined] is [false] *)
  _hasRendered : bool;
  fields : Panel.State
}.

(** What [render()] writes into the shadow root. *)
Inductive Screen :=
| Loading
| Card (v : Panel.View).

(** [constructor()] *)
Definition constructor : Element :=
  {| _hass := None; _hasRendered := false; fields := Panel.constructor |}.

(** [render()] *)
Definition render (el : Element) : Screen :=
  match _hass el with
  | None => Loading
  | Some _ => Card (Panel.view (fields el))
  end.

(** [set hass(hass)], with what it renders. *)
Definition set_hass (hass : option Panel.Host) (el : Element) : Element * list Screen :=
  let el1 := {| _hass := hass; _hasRendered := _hasRendered el; fields := fields el |} in
  if negb (_hasRendered el1)
  then
    let el2 := {| _hass := _hass el1; _hasRendered := true; fields := fields el1 |} in
    (el2, [ render el2 ])
  else (el1, []).

(** The listener of [hass-connect], with what it renders. *)
Definition onHassConnect (hass : option Panel.Host) (el : Element) : Element * list Screen :=
  let el1 := {| _hass := hass; _hasRendered := _hasRendered el; fields := fields el |} in
  (el1, [ render el1 ]).

(** Assignments to [hass], one after the other. *)
Definition assign (hs : list (option Panel.Host)) (el : Element) : Element * list Screen :=
  fold_left (λ acc hass, let '(e, out) := set_hass hass (fst acc) in (e, snd acc ++ out))
            hs (el, []).

End Shell.

(** ** Sessions and hosts used below *)

Module Sessions.
Import Js.

(** Typing each text and sending it, one after the other. *)
Definition answering (texts : list string) : list Guided.Handler :=
  flat_map (λ t, [ Guided.OnInput t; Guided.HandleSend ]) texts.

(** The five questions of the card. *)
Definition questions : list string :=
  map Guided.question (Guided.automationSteps Guided.constructor).

(** The steps with the given answers. *)
Definition answered_steps (texts : list string) : list Guided.Step :=
  zip_with (λ q a, {| Guided.question := q; Guided.answer := a |}) questions texts.

(** A host of the panel of main.js that has the text on the second call
    of [get_automation_yaml] only. *)
Definition late_host : Panel.Host :=
  {| Panel.create_automation := λ _, Fulfilled None;
     Panel.get_automation_yaml :=
       λ k, match k with
            | 0 => Fulfilled None
            | _ => Fulfilled (Some {| yaml := Some "alias: porch light" |})
            end;
     Panel.states := [] |}.

(** A host of the panel of main.js whose first [get_automation_yaml] is
    rejected. *)
Definition failing_fetch_host : Panel.Host :=
  {| Panel.create_automation := λ _, Fulfilled None;
     Panel.get_automation_yaml := λ _, Rejected {| message := Some "service not found" |};
     Panel.states := [] |}.

(** A host of the panel of main.js whose second [get_automation_yaml] is
    rejected. *)
Definition failing_retry_host : Panel.Host :=
  {| Panel.create_automation := λ _, Fulfilled None;
     Panel.get_automation_yaml :=
       λ k, match k with
            | 0 => Fulfilled None
            | _ => Rejected {| message := None |}
            end;
     Panel.states := [] |}.

(** Hosts of the form panel. *)
Definition form_host : FormPanel.Host :=
  {| FormPanel.create_automation := λ _, Fulfilled None;
     FormPanel.get_automation_yaml := Fulfilled (Some {| yaml := Some "alias: ignored" |});
     FormPanel.latest_automation := Some "alias: porch light" |}.

Definition form_refusing_host : FormPanel.Host :=
  {| FormPanel.create_automation := λ _, Rejected {| message := Some "quota exceeded" |};
     FormPanel.get_automation_yaml := Fulfilled None;
     FormPanel.latest_automation := None |}.

Definition form_failing_fetch_host : FormPanel.Host :=
  {| FormPanel.create_automation := λ _, Fulfilled None;
     FormPanel.get_automation_yaml := Rejected {| message := None |};
     FormPanel.latest_automation := Some "alias: porch light" |}.

(** A host of the guided card that refuses the creation call. *)
Definition guided_refusing_host : Guided.Host :=
  {| Guided.create_automation := λ _, Rejected {| message := Some "quota exceeded" |};
     Guided.automation_config := Rejected {| message := None |} |}.

(** A host of the guided card that creates the automation. *)
Definition guided_host : Guided.Host :=
  {| Guided.create_automation := λ _, Fulfilled None;
     Guided.automation_config := Fulfilled "{}" |}.

(** A host of the prompt panel that creates the automation. *)
Definition prompt_host : Prompt.Host :=
  {| Prompt.create_automation := λ _, Fulfilled None;
     Prompt.success_notification := true;
     Prompt.latest_automation := Some "alias: porch light" |}.

End Sessions.

(** * Properties *)

(** ** Strings *)

Module JsFacts.
Import Js.

Lemma append_nil_r (s : string) : s +:+ "" = s.
Proof.
  induction s as [|c s IH]; [reflexivity|].
  change (String c (s +:+ "") = String c s). by rewrite IH.
Qed.

Lemma append_assoc (a b c : string) : (a +:+ b) +:+ c = a +:+ (b +:+ c).
Proof.
  induction a as [|x a IH]; [reflexivity|].
  change (String x ((a +:+ b) +:+ c) = String x (a +:+ (b +:+ c))). by rewrite IH.
Qed.

Lemma trimEnd_empty (s : string) : trimEnd s = "" ↔ all_white_space s = true.
Proof.
  induction s as [|c s IH]; cbn; [done|].
  destruct (trimEnd s) eqn:E, (is_white_space c); cbn; split; try done.
  - intros _. by apply IH.
  - intros H. apply IH in H. done.
Qed.

Lemma trimStart_white_space (s : string) :
  all_white_space (trimStart s) = true ↔ all_white_space s = true.
Proof.
  induction s as [|c s IH]; cbn; [done|].
  destruct (is_white_space c) eqn:E; cbn; [done|].
  by rewrite E.
Qed.

(** [!text.trim()] holds exactly of the texts made of white space. *)
Lemma trim_empty (s : string) : trim s = "" ↔ all_white_space s = true.
Proof. unfold trim. by rewrite trimEnd_empty, trimStart_white_space. Qed.

Lemma truthy_false (s : string) : truthy s = false ↔ s = "".
Proof. by destruct s. Qed.

Lemma truthy_true (s : string) : truthy s = true ↔ s ≠ "".
Proof. by destruct s. Qed.

End JsFacts.

(** ** The guided card *)

Module GuidedFacts.
Import Js JsFacts Guided.

Lemma fullDescription_from (steps : list Step) (acc : string) :
  fold_left (λ acc step, acc +:+ (question step +:+ nl +:+ answer step +:+ nl +:+ nl)) steps acc
  = acc +:+ blocks steps.
Proof.
  revert acc. induction steps as [|st steps IH]; intros acc.
  - cbn. by rewrite append_nil_r.
  - cbn [fold_left blocks foldr]. rewrite IH. by rewrite append_assoc.
Qed.

Lemma fullDescription_blocks (steps : list Step) :
  fullDescription steps = blocks steps.
Proof. unfold fullDescription. by rewrite fullDescription_from. Qed.

Lemma steps_eq (l1 l2 : list Step) :
  map question l1 = map question l2 → map answer l1 = map answer l2 → l1 = l2.
Proof.
  revert l2. induction l1 as [|[q a] l1 IH]; intros [|[q' a'] l2]; cbn; try done.
  intros [= -> Hq] [= -> Ha]. f_equal. by apply IH.
Qed.

(** C1.  The description that [createAutomation] sends with the creation
    call is the concatenation, in step order, of one block per step:
    the step's question, a line feed, the step's answer and two line
    feeds, so that a blank line follows every question and answer pair.
    It is the only call the handler makes, and two cards whose steps
    carry the same questions and the same answers send the same
    description. *)
Theorem createAutomation_description (s1 s2 : State) :
  map question (automationSteps s1) = map question (automationSteps s2) →
  map answer (automationSteps s1) = map answer (automationSteps s2) →
  snd (createAutomation_begin s1)
    = [ CallService "ai_automation_creator" "create_automation"
          (Some (blocks (automationSteps s1))) ]
  ∧ snd (createAutomation_begin s2) = snd (createAutomation_begin s1)
  ∧ ∀ v h, ∃ rest,
      snd (createAutomation v h s1) = snd (createAutomation_begin s1) ++ rest
      ∧ calls "create_automation" (snd (createAutomation v h s1)) = 1.
Proof.
  intros Hq Ha. split_and!.
  - unfold createAutomation_begin. cbn [snd automationSteps set_isProcessing].
    by rewrite fullDescription_blocks.
  - unfold createAutomation_begin. cbn [snd automationSteps set_isProcessing].
    by rewrite (steps_eq _ _ Hq Ha).
  - intros v h. unfold createAutomation, createAutomation_begin.
    cbn [automationSteps set_isProcessing snd].
    destruct (create_automation h _); cbn [onCreated snd].
    + eexists. split; reflexivity.
    + exists []. split; reflexivity.
Qed.

Lemma createAutomation_description_witness :
  snd (createAutomation_begin answered)
    = [ CallService "ai_automation_creator" "create_automation"
          (Some (blocks (automationSteps answered))) ]
  ∧ snd (createAutomation_begin (set_userInput "x" answered))
    = snd (createAutomation_begin answered)
  ∧ ∀ v h, ∃ rest,
      snd (createAutomation v h answered) = snd (createAutomation_begin answered) ++ rest
      ∧ calls "create_automation" (snd (createAutomation v h answered)) = 1.
Proof.
  refine (createAutomation_description answered (set_userInput "x" answered) _ _);
    vm_compute; reflexivity.
Defined.

Lemma insert_alter (f : Step → Step) (l : list Step) (i : nat) (st : Step) :
  l !! i = Some st → <[i := f st]> l = alter f i l.
Proof.
  revert i. induction l as [|x l IH]; intros [|i] H; cbn in *; try done.
  - by injection H as ->.
  - f_equal. by apply IH.
Qed.

Lemma before_last (i n : nat) :
  (Z.of_nat i <? Z.of_nat n - 1)%Z = true ↔ i + 1 < n.
Proof. rewrite Z.ltb_lt. lia. Qed.

(** The handlers other than [handleSend] and [startOver] leave the step
    index and the steps alone. *)
Lemma run_other (m : Handler) (s : State) :
  m ≠ HandleSend → m ≠ StartOver →
  currentStep (run m s) = currentStep s ∧ automationSteps (run m s) = automationSteps s.
Proof.
  intros Hs Ho. destruct m as [v|value| |v h| ]; try done; cbn [run].
  - unfold connectedCallback.
    destruct v, (conversation s), (automationSteps s !! 0); split; reflexivity.
  - unfold createAutomation, createAutomation_begin.
    destruct (create_automation h _); [|split; reflexivity].
    unfold onCreated, onApiSettled. destruct (automation_config h), v; split; reflexivity.
Qed.

(** [handleSend] changes neither the step index nor the steps when the
    text is blank or every step has been answered. *)
Lemma handleSend_stays (s : State) :
  trim (userInput s) = "" ∨ length (automationSteps s) ≤ currentStep s →
  currentStep (run HandleSend s) = currentStep s
  ∧ automationSteps (run HandleSend s) = automationSteps s.
Proof.
  intros H. cbn [run]. unfold handleSend.
  destruct (truthy (trim (userInput s))) eqn:E; cbn [negb]; [|done].
  destruct H as [H|H]; [by rewrite H in E|].
  cbn [automationSteps currentStep set_conversation].
  by rewrite (lookup_ge_None_2 _ _ H).
Qed.

(** C7.  With a text that is not blank and the step index [i] below the
    number [N] of steps, [handleSend] records the text as the answer of
    step [i], clears the input and appends a user message with the text;
    when [i < N - 1] the index becomes [i + 1] and one assistant message
    with the question of step [i + 1] follows; when [i = N - 1] the index
    becomes [N] and nothing follows.  No other handler moves the index or
    touches the steps, apart from [startOver]; and [handleSend] itself
    does neither on a blank text or once every step is answered. *)
Theorem handleSend_advances (s : State) (i : nat) (text : string) :
  currentStep s = i →
  userInput s = text →
  i < length (automationSteps s) →
  trim text ≠ "" →
  ∃ s',
    handleSend s = (Normal (), s')
    ∧ automationSteps s' = alter (set_answer text) i (automationSteps s)
    ∧ userInput s' = ""
    ∧ isProcessing s' = isProcessing s
    ∧ automationCreated s' = automationCreated s
    ∧ automationYaml s' = automationYaml s
    ∧ (i + 1 < length (automationSteps s) →
       currentStep s' = i + 1
       ∧ ∃ next, automationSteps s !! (i + 1) = Some next
         ∧ conversation s' =
             conversation s ++ [ {| sender := user; content := text |};
                                 {| sender := assistant; content := question next |} ])
    ∧ (i + 1 = length (automationSteps s) →
       currentStep s' = length (automationSteps s)
       ∧ conversation s' = conversation s ++ [ {| sender := user; content := text |} ])
    ∧ (∀ m s0, m ≠ HandleSend → m ≠ StartOver →
       currentStep (run m s0) = currentStep s0
       ∧ automationSteps (run m s0) = automationSteps s0)
    ∧ (∀ s0, trim (userInput s0) = "" ∨ length (automationSteps s0) ≤ currentStep s0 →
       currentStep (run HandleSend s0) = currentStep s0
       ∧ automationSteps (run HandleSend s0) = automationSteps s0).
Proof.
  intros <- <- Hlt Hne.
  destruct (lookup_lt_is_Some_2 _ _ Hlt) as [st Hst].
  apply truthy_true in Hne.
  unfold handleSend. rewrite Hne. cbn [negb].
  cbn [automationSteps currentStep userInput conversation
       set_conversation set_automationSteps set_userInput set_currentStep].
  rewrite Hst, length_insert.
  destruct (Z.of_nat (currentStep s) <? Z.of_nat (length (automationSteps s)) - 1)%Z eqn:E.
  - apply before_last in E.
    destruct (lookup_lt_is_Some_2 (automationSteps s) (currentStep s + 1) E) as [next Hnext].
    rewrite list_lookup_insert_ne, Hnext by lia.
    eexists. split; [reflexivity|].
    cbn [automationSteps currentStep userInput conversation isProcessing
         automationCreated automationYaml set_conversation].
    split_and!; try done.
    + by apply insert_alter.
    + intros _. split; [done|]. exists next. split; [done|]. by rewrite <- List.app_assoc.
    + lia.
    + apply run_other.
    + apply handleSend_stays.
  - assert (currentStep s + 1 = length (automationSteps s)) as Hlast.
    { apply not_true_iff_false in E. rewrite before_last in E. lia. }
    eexists. split; [reflexivity|].
    cbn [automationSteps currentStep userInput conversation isProcessing
         automationCreated automationYaml set_currentStep].
    split_and!; try done.
    + by apply insert_alter.
    + lia.
    + apply run_other.
    + apply handleSend_stays.
Qed.

Lemma handleSend_advances_witness :
  ∃ s',
    handleSend (onInput "At sunset" (snd (connectedCallback Card constructor)))
      = (Normal (), s')
    ∧ currentStep s' = 1
    ∧ answer <$> automationSteps s' !! 0 = Some "At sunset"
    ∧ length (conversation s') = 3.
Proof.
  destruct (handleSend_advances
              (onInput "At sunset" (snd (connectedCallback Card constructor)))
              0 "At sunset" eq_refl eq_refl)
    as (s' & Hrun & Hsteps & _ & _ & _ & _ & Hnext & _).
  - vm_compute. lia.
  - vm_compute. discriminate.
  - exists s'. destruct Hnext as [Hcur (next & Hq & Hconv)]; [vm_compute; lia|].
    split_and!; [done|done| |].
    + rewrite Hsteps. reflexivity.
    + rewrite Hconv. reflexivity.
Defined.

(** C8.  When the text in the input is empty or made of white space only,
    its trimmed form is empty and [handleSend] returns at once: the card
    is left as it was, with the same step index, the same answers and the
    same messages. *)
Theorem handleSend_blank (s : State) (text : string) :
  userInput s = text →
  all_white_space text = true →
  trim text = "" ∧ handleSend s = (Normal (), s).
Proof.
  intros <- Hws. apply trim_empty in Hws. split; [done|].
  unfold handleSend. by rewrite Hws.
Qed.

Lemma handleSend_blank_witness :
  trim "   " = ""
  ∧ handleSend (onInput "   " answered) = (Normal (), onInput "   " answered).
Proof.
  apply (handleSend_blank (onInput "   " answered) "   "); reflexivity.
Defined.

Lemma set_answer_question (l : list Step) (v : string) :
  map question (map (set_answer v) l) = map question l.
Proof. induction l as [|st l IH]; cbn; [done|]. by rewrite IH. Qed.

Lemma set_answer_all (l : list Step) (v : string) :
  Forall (λ st, answer st = v) (map (set_answer v) l).
Proof. induction l as [|st l IH]; cbn; constructor; done. Qed.

(** C9.  Whatever the step index, the answers and the messages were,
    after [startOver] of a card that has a first step the step index is
    0, every step has an empty answer and its question as before, and the
    conversation holds one message, from the assistant, with the first
    question. *)
Theorem startOver_resets (s : State) (first : Step) :
  automationSteps s !! 0 = Some first →
  ∃ s',
    startOver s = (Normal (), s')
    ∧ currentStep s' = 0
    ∧ Forall (λ st, answer st = "") (automationSteps s')
    ∧ map question (automationSteps s') = map question (automationSteps s)
    ∧ conversation s' = [ {| sender := assistant; content := question first |} ]
    ∧ userInput s' = ""
    ∧ automationCreated s' = false.
Proof.
  intros Hfirst. unfold startOver.
  cbn [automationSteps set_automationSteps set_currentStep set_automationCreated
       set_automationYaml set_userInput set_conversation].
  rewrite list_lookup_fmap, Hfirst. cbn [fmap option_fmap option_map].
  eexists. split; [reflexivity|].
  cbn [automationSteps currentStep conversation userInput automationCreated
       set_conversation].
  split_and!; try done.
  - apply set_answer_all.
  - apply set_answer_question.
Qed.

Lemma startOver_resets_witness :
  ∃ s',
    startOver answered = (Normal (), s')
    ∧ currentStep s' = 0
    ∧ Forall (λ st, answer st = "") (automationSteps s')
    ∧ map question (automationSteps s') = map question (automationSteps answered)
    ∧ conversation s' =
        [ {| sender := assistant;
             content := "What would you like this automation to do? (Describe in natural language)" |} ]
    ∧ userInput s' = ""
    ∧ automationCreated s' = false.
Proof.
  apply (startOver_resets answered
           {| question := "What would you like this automation to do? (Describe in natural language)";
              answer := "Turn on the porch light" |}).
  vm_compute. reflexivity.
Defined.

(** The questions never change: every handler keeps them, so every card
    reached from the constructor has the five questions, and a first
    step. *)
Lemma run_questions (m : Handler) (s : State) :
  map question (automationSteps (run m s)) = map question (automationSteps s).
Proof.
  destruct m as [v|value| |v h| ].
  - by destruct (run_other (ConnectedCallback v) s) as [_ ->].
  - by destruct (run_other (OnInput value) s) as [_ ->].
  - cbn [run]. unfold handleSend.
    destruct (truthy (trim (userInput s))); cbn [negb snd]; [|done].
    cbn -[lookup insert Z.of_nat Z.ltb Z.sub length].
    destruct (automationSteps s !! currentStep s) as [st|] eqn:Hst; [|done].
    assert (map question (<[currentStep s := set_answer (userInput s) st]> (automationSteps s))
            = map question (automationSteps s)) as Hins.
    { rewrite (insert_alter (set_answer (userInput s)) _ _ _ Hst).
      apply list_eq. intros j. rewrite !list_lookup_fmap.
      destruct (decide (currentStep s = j)) as [<-|Hne].
      - rewrite list_lookup_alter_eq. by destruct (automationSteps s !! currentStep s).
      - by rewrite list_lookup_alter_ne. }
    destruct (_ <? _)%Z;
      [destruct (<[currentStep s := set_answer (userInput s) st]> (automationSteps s)
                   !! (currentStep s + 1))|];
      exact Hins.
  - by destruct (run_other (CreateAutomation v h) s) as [_ ->].
  - cbn [run]. unfold startOver.
    cbn [automationSteps set_automationSteps set_currentStep set_automationCreated
         set_automationYaml set_userInput set_conversation].
    destruct (_ !! 0); cbn [snd automationSteps set_conversation set_automationSteps];
      apply set_answer_question.
Qed.

Lemma runs_questions (ms : list Handler) (s : State) :
  map question (automationSteps (runs ms s)) = map question (automationSteps s).
Proof.
  revert s. induction ms as [|m ms IH]; intros s; [done|].
  cbn [runs fold_left]. change (fold_left _ ms ?x) with (runs ms x).
  by rewrite IH, run_questions.
Qed.

Lemma reached_has_first_step (ms : list Handler) :
  ∃ first, automationSteps (runs ms constructor) !! 0 = Some first.
Proof.
  pose proof (runs_questions ms constructor) as H.
  destruct (automationSteps (runs ms constructor)) as [|first l]; [done|].
  by exists first.
Qed.

(** Wherever the step index has reached the number of steps while
    nothing is being processed, [renderConversation] reads the question
    of a step that does not exist. *)
Lemma renderConversation_complete (s : State) :
  isProcessing s = false →
  length (automationSteps s) ≤ currentStep s →
  renderConversation s = Abrupt TypeError.
Proof.
  intros Hp Hge. unfold renderConversation.
  by rewrite Hp, (lookup_ge_None_2 _ _ Hge).
Qed.

(** C10.  After the five questions have been answered the step index
    equals the number of steps, nothing is being processed and no
    automation has been created, so the conversation is what [render]
    shows; there [renderConversation] reads the question of a step that
    does not exist and ends on a [TypeError]. *)
Theorem renderConversation_out_of_bounds :
  currentStep answered = length (automationSteps answered)
  ∧ isProcessing answered = false
  ∧ automationCreated answered = false
  ∧ automationSteps answered !! currentStep answered = None
  ∧ renderConversation answered = Abrupt TypeError
  ∧ render answered = Abrupt TypeError.
Proof. split_and!; vm_compute; reflexivity. Qed.

End GuidedFacts.

(** ** The panel of main.js *)

Module PanelFacts.
Import Js JsFacts Promise Panel.

Ltac fields :=
  cbn [snd fst component trace app userInput isProcessing automationYaml automationCreated
       errorMessage set_userInput set_isProcessing set_automationYaml set_automationCreated
       set_errorMessage].

Ltac chain_step :=
  unfold listeners, onFirstResult, onSecondResult, handleError, callGetYaml, callCreate,
    setTimeout, render, catch, and_then, settle, emit, called, modify, get;
  fields.

Ltac count_calls :=
  match goal with
  | |- context [calls ?sv ?t] =>
      let n := eval vm_compute in (calls sv t) in change (calls sv t) with n
  end.

Ltac start Href :=
  unfold generateAutomation, generateAutomation_begin; rewrite Href; chain_step.

(** The fields once the creation call is pending. *)
Lemma pending_fields (s : State) :
  refused s = false →
  component (generateAutomation_begin s)
  = {| userInput := userInput s; isProcessing := true; automationYaml := automationYaml s;
       automationCreated := automationCreated s; errorMessage := None |}
  ∧ trace (generateAutomation_begin s)
    = [ Render (view (component (generateAutomation_begin s)));
        CallService "ai_automation_creator" "create_automation" (Some (userInput s)) ].
Proof. intros Href. start Href. by split. Qed.

Lemma generateAutomation_refused (h : Host) (s : State) :
  refused s = true → generateAutomation h s = {| component := s; trace := [] |}.
Proof. intros Href. unfold generateAutomation. by rewrite Href. Qed.

(** The creation call is rejected. *)
Lemma path_create_rejected (h : Host) (s : State) (e : Error) :
  refused s = false →
  create_automation h (userInput s) = Rejected e →
  let final :=
    {| userInput := userInput s; isProcessing := false; automationYaml := automationYaml s;
       automationCreated := automationCreated s;
       errorMessage := Some ("Error: " +:+ or_else (message e) generic_error) |} in
  generateAutomation h s
  = {| component := final;
       trace := trace (generateAutomation_begin s) ++ [ Render (view final) ] |}.
Proof. intros Href Hc. start Href. by rewrite Hc. Qed.

(** The first [get_automation_yaml] resolves with a text. *)
Lemma path_first_result (h : Host) (s : State) (r r1 : Result) (y : string) :
  refused s = false →
  create_automation h (userInput s) = Fulfilled r →
  get_automation_yaml h 0 = Fulfilled r1 →
  result_yaml r1 = Some y →
  let final :=
    {| userInput := userInput s; isProcessing := false; automationYaml := y;
       automationCreated := true; errorMessage := None |} in
  generateAutomation h s
  = {| component := final;
       trace := trace (generateAutomation_begin s) ++
                [ SetTimeout 2000;
                  CallService "ai_automation_creator" "get_automation_yaml" None;
                  Render (view final) ] |}.
Proof.
  intros Href Hc Hg Hy. start Href. rewrite Hc. fields. count_calls.
  by rewrite Hg, Hy.
Qed.

(** The first [get_automation_yaml] is rejected. *)
Lemma path_first_rejected (h : Host) (s : State) (r : Result) (e : Error) :
  refused s = false →
  create_automation h (userInput s) = Fulfilled r →
  get_automation_yaml h 0 = Rejected e →
  let final :=
    {| userInput := userInput s; isProcessing := false; automationYaml := automationYaml s;
       automationCreated := automationCreated s;
       errorMessage := Some ("Error: " +:+ or_else (message e) generic_error) |} in
  generateAutomation h s
  = {| component := final;
       trace := trace (generateAutomation_begin s) ++
                [ SetTimeout 2000;
                  CallService "ai_automation_creator" "get_automation_yaml" None;
                  Render (view final) ] |}.
Proof.
  intros Href Hc Hg. start Href. rewrite Hc. fields. count_calls.
  by rewrite Hg.
Qed.

(** The first [get_automation_yaml] has no text and the second one
    resolves. *)
Lemma path_second_result (h : Host) (s : State) (r r1 r2 : Result) :
  refused s = false →
  create_automation h (userInput s) = Fulfilled r →
  get_automation_yaml h 0 = Fulfilled r1 →
  result_yaml r1 = None →
  get_automation_yaml h 1 = Fulfilled r2 →
  let final :=
    {| userInput := userInput s; isProcessing := false;
       automationYaml :=
         match result_yaml r2 with
         | Some y => y
         | None =>
             if existsb (λ key, includes key success_marker) (states h)
             then confirmed_message else processed_message
         end;
       automationCreated := true; errorMessage := None |} in
  generateAutomation h s
  = {| component := final;
       trace := trace (generateAutomation_begin s) ++
                [ SetTimeout 2000;
                  CallService "ai_automation_creator" "get_automation_yaml" None;
                  SetTimeout 1000;
                  CallService "ai_automation_creator" "get_automation_yaml" None;
                  Render (view final) ] |}.
Proof.
  intros Href Hc Hg1 Hr1 Hg2. start Href. rewrite Hc. fields. count_calls.
  rewrite Hg1, Hr1. fields. count_calls. by rewrite Hg2.
Qed.

(** The first [get_automation_yaml] has no text and the second one is
    rejected. *)
Lemma path_second_rejected (h : Host) (s : State) (r r1 : Result) (e : Error) :
  refused s = false →
  create_automation h (userInput s) = Fulfilled r →
  get_automation_yaml h 0 = Fulfilled r1 →
  result_yaml r1 = None →
  get_automation_yaml h 1 = Rejected e →
  let final :=
    {| userInput := userInput s; isProcessing := false; automationYaml := automationYaml s;
       automationCreated := automationCreated s;
       errorMessage := Some ("Error: " +:+ or_else (message e) generic_error) |} in
  generateAutomation h s
  = {| component := final;
       trace := trace (generateAutomation_begin s) ++
                [ SetTimeout 2000;
                  CallService "ai_automation_creator" "get_automation_yaml" None;
                  SetTimeout 1000;
                  CallService "ai_automation_creator" "get_automation_yaml" None;
                  Render (view final) ] |}.
Proof.
  intros Href Hc Hg1 Hr1 Hg2. start Href. rewrite Hc. fields. count_calls.
  rewrite Hg1, Hr1. fields. count_calls. by rewrite Hg2.
Qed.

(** Whatever the host answers, a submission that was started ends with
    [isProcessing] false. *)
Lemma generateAutomation_ends (h : Host) (s : State) :
  refused s = false → isProcessing (component (generateAutomation h s)) = false.
Proof.
  intros Href.
  destruct (create_automation h (userInput s)) as [r|e] eqn:Hc.
  2: { by rewrite (path_create_rejected h s e Href Hc). }
  destruct (get_automation_yaml h 0) as [r1|e] eqn:Hg1.
  2: { by rewrite (path_first_rejected h s r e Href Hc Hg1). }
  destruct (result_yaml r1) as [y|] eqn:Hr1.
  { by rewrite (path_first_result h s r r1 y Href Hc Hg1 Hr1). }
  destruct (get_automation_yaml h 1) as [r2|e] eqn:Hg2.
  - by rewrite (path_second_result h s r r1 r2 Href Hc Hg1 Hr1 Hg2).
  - by rewrite (path_second_rejected h s r r1 e Href Hc Hg1 Hr1 Hg2).
Qed.

Lemma pending_trace (s : State) :
  refused s = false →
  ∃ v, trace (generateAutomation_begin s)
       = [ Render v;
           CallService "ai_automation_creator" "create_automation" (Some (userInput s)) ].
Proof. intros Href. eexists. apply (pending_fields s Href). Qed.

(** C2, as stated, fails: with a host whose creation call resolves
    with a text, [generateAutomation] still waits, calls
    [get_automation_yaml] once, and shows the text of that call, not
    the text the creation call resolved with. *)
Lemma generateAutomation_discards_creation_result :
  refused typed = false
  ∧ create_automation eager_host (userInput typed)
    = Fulfilled (Some {| yaml := Some "alias: from create_automation" |})
  ∧ calls "get_automation_yaml" (trace (generateAutomation eager_host typed)) = 1
  ∧ timeouts (trace (generateAutomation eager_host typed)) = 1
  ∧ automationYaml (component (generateAutomation eager_host typed))
    = "alias: from get_automation_yaml".
Proof. split_and!; vm_compute; reflexivity. Qed.

(** C2, amended.  Whatever the creation call resolves with, the panel
    waits 2000 ms and calls [get_automation_yaml]; when that first call
    resolves with a text, the panel shows this text as the result, is no
    longer processing, and has made one creation call and one
    [get_automation_yaml] call. *)
Theorem generateAutomation_first_fetch
    (h : Host) (s : State) (r r1 : Result) (y : string) :
  refused s = false →
  create_automation h (userInput s) = Fulfilled r →
  get_automation_yaml h 0 = Fulfilled r1 →
  result_yaml r1 = Some y →
  let w := generateAutomation h s in
  component w
    = {| userInput := userInput s; isProcessing := false; automationYaml := y;
         automationCreated := true; errorMessage := None |}
  ∧ view (component w) = ResultView y
  ∧ trace w
    = trace (generateAutomation_begin s) ++
      [ SetTimeout 2000;
        CallService "ai_automation_creator" "get_automation_yaml" None;
        Render (ResultView y) ]
  ∧ calls "create_automation" (trace w) = 1
  ∧ calls "get_automation_yaml" (trace w) = 1.
Proof.
  intros Href Hc Hg Hy w. subst w.
  rewrite (path_first_result h s r r1 y Href Hc Hg Hy).
  destruct (pending_trace s Href) as [v ->].
  split_and!; reflexivity.
Qed.

Lemma generateAutomation_first_fetch_witness :
  let w := generateAutomation eager_host typed in
  component w
    = {| userInput := userInput typed; isProcessing := false;
         automationYaml := "alias: from get_automation_yaml";
         automationCreated := true; errorMessage := None |}
  ∧ view (component w) = ResultView "alias: from get_automation_yaml"
  ∧ trace w
    = trace (generateAutomation_begin typed) ++
      [ SetTimeout 2000;
        CallService "ai_automation_creator" "get_automation_yaml" None;
        Render (ResultView "alias: from get_automation_yaml") ]
  ∧ calls "create_automation" (trace w) = 1
  ∧ calls "get_automation_yaml" (trace w) = 1.
Proof.
  apply (generateAutomation_first_fetch eager_host typed
           (Some {| yaml := Some "alias: from create_automation" |})
           (Some {| yaml := Some "alias: from get_automation_yaml" |})
           "alias: from get_automation_yaml");
    reflexivity.
Defined.

(** C3.  When the creation call resolves and neither of the two
    [get_automation_yaml] calls resolves with a text, the panel ends on
    the result view with a message in place of the text, not on an
    error: it is no longer processing, [automationCreated] is set, no
    error message is set, and the second [get_automation_yaml] call was
    made 1000 ms after the first. *)
Theorem generateAutomation_without_text (h : Host) (s : State) (r : Result) :
  refused s = false →
  create_automation h (userInput s) = Fulfilled r →
  (∀ k, k < 2 → ∃ rk, get_automation_yaml h k = Fulfilled rk ∧ result_yaml rk = None) →
  let w := generateAutomation h s in
  let text :=
    if existsb (λ key, includes key success_marker) (states h)
    then confirmed_message else processed_message in
  component w
    = {| userInput := userInput s; isProcessing := false; automationYaml := text;
         automationCreated := true; errorMessage := None |}
  ∧ view (component w) = ResultView text
  ∧ trace w
    = trace (generateAutomation_begin s) ++
      [ SetTimeout 2000;
        CallService "ai_automation_creator" "get_automation_yaml" None;
        SetTimeout 1000;
        CallService "ai_automation_creator" "get_automation_yaml" None;
        Render (ResultView text) ]
  ∧ calls "create_automation" (trace w) = 1
  ∧ calls "get_automation_yaml" (trace w) = 2.
Proof.
  intros Href Hc Hget w text. subst w text.
  destruct (Hget 0) as (r1 & Hg1 & Hr1); [lia|].
  destruct (Hget 1) as (r2 & Hg2 & Hr2); [lia|].
  rewrite (path_second_result h s r r1 r2 Href Hc Hg1 Hr1 Hg2), Hr2.
  destruct (pending_trace s Href) as [v ->].
  split_and!; reflexivity.
Qed.

Lemma generateAutomation_without_text_witness :
  let w := generateAutomation silent_host typed in
  component w
    = {| userInput := userInput typed; isProcessing := false;
         automationYaml := confirmed_message;
         automationCreated := true; errorMessage := None |}
  ∧ view (component w) = ResultView confirmed_message
  ∧ trace w
    = trace (generateAutomation_begin typed) ++
      [ SetTimeout 2000;
        CallService "ai_automation_creator" "get_automation_yaml" None;
        SetTimeout 1000;
        CallService "ai_automation_creator" "get_automation_yaml" None;
        Render (ResultView confirmed_message) ]
  ∧ calls "create_automation" (trace w) = 1
  ∧ calls "get_automation_yaml" (trace w) = 2.
Proof.
  apply (generateAutomation_without_text silent_host typed None).
  - reflexivity.
  - reflexivity.
  - intros k _. exists None. split; reflexivity.
Defined.

(** C4.  When the creation call is rejected, the panel sets the error
    message to the text of the error after the prefix [Error: ], or to
    [Failed to create automation] after it when the error has no
    message; it is no longer processing; the trace holds the one creation
    call, no [get_automation_yaml] call and no timer. *)
Theorem generateAutomation_rejected (h : Host) (s : State) (e : Error) :
  refused s = false →
  create_automation h (userInput s) = Rejected e →
  let w := generateAutomation h s in
  component w
    = {| userInput := userInput s; isProcessing := false; automationYaml := automationYaml s;
         automationCreated := automationCreated s;
         errorMessage := Some ("Error: " +:+ or_else (message e) generic_error) |}
  ∧ (∀ m, message e = Some m → m ≠ "" →
     errorMessage (component w) = Some ("Error: " +:+ m))
  ∧ (message e = None ∨ message e = Some "" →
     errorMessage (component w) = Some "Error: Failed to create automation")
  ∧ trace w = trace (generateAutomation_begin s) ++ [ Render (view (component w)) ]
  ∧ calls "create_automation" (trace w) = 1
  ∧ calls "get_automation_yaml" (trace w) = 0
  ∧ timeouts (trace w) = 0.
Proof.
  intros Href Hc w. subst w.
  rewrite (path_create_rejected h s e Href Hc).
  destruct (pending_trace s Href) as [v ->].
  cbn [component trace errorMessage].
  split_and!; try reflexivity.
  - intros m -> Hm. apply truthy_true in Hm. cbn [or_else]. by rewrite Hm.
  - intros [-> | ->]; reflexivity.
Qed.

Lemma generateAutomation_rejected_witness :
  let w := generateAutomation refusing_host typed in
  errorMessage (component w) = Some "Error: quota exceeded"
  ∧ isProcessing (component w) = false
  ∧ automationCreated (component w) = false
  ∧ calls "create_automation" (trace w) = 1
  ∧ calls "get_automation_yaml" (trace w) = 0
  ∧ timeouts (trace w) = 0.
Proof.
  destruct (generateAutomation_rejected refusing_host typed
              {| message := Some "quota exceeded" |} eq_refl eq_refl)
    as (Hfinal & Hmsg & _ & _ & Hcreate & Hget & Htime).
  cbv zeta. rewrite (Hmsg "quota exceeded" eq_refl), Hfinal by discriminate.
  split_and!; done.
Defined.

End PanelFacts.

(** ** Submissions in the three panels *)

Module SubmissionFacts.
Import Js JsFacts Promise.

Lemma trim_truthy (u : string) : truthy (trim u) = true → truthy u = true.
Proof. by destruct u. Qed.

(** [generateAutomation] does nothing while a submission is pending. *)
Lemma generateAutomation_guard (h : Panel.Host) (s : Panel.State) :
  Panel.isProcessing s = true →
  Panel.generateAutomation h s = {| component := s; trace := [] |}
  ∧ Panel.generateAutomation_begin s = {| component := s; trace := [] |}.
Proof.
  intros Hp. unfold Panel.generateAutomation, Panel.generateAutomation_begin, Panel.refused.
  by rewrite Hp, orb_true_r.
Qed.

(** The Create Automation button of the guided card is disabled while a
    submission is pending. *)
Lemma guided_button_disabled (s : Guided.State) (c : Guided.ConversationView) :
  Guided.isProcessing s = true →
  Guided.renderConversation s = Normal c →
  Guided.createButton c = None ∨ Guided.createButton c = Some true.
Proof.
  intros Hp. unfold Guided.renderConversation. rewrite Hp.
  intros [= <-]. cbn [Guided.createButton]. destruct (_ <=? _)%Z; auto.
Qed.

(** C5.  [createAutomation] does not look at [isProcessing].  In the
    prompt panel the button stays enabled while the text is not empty,
    so a second click while the first creation call is pending makes a
    second creation call; in the guided card the handler, run while a
    call is pending, makes a second call as well.  [generateAutomation]
    of main.js, run while a call is pending, does nothing. *)
Theorem createAutomation_reentered :
  Prompt.isProcessing (fst (Prompt.click Prompt.typed)) = true
  ∧ Prompt.render (fst (Prompt.click Prompt.typed))
    = Prompt.PromptView "Turn on the porch light at sunset" false true
  ∧ snd (Prompt.click (fst (Prompt.click Prompt.typed)))
    = [ CallService "ai_automation_creator" "create_automation"
          (Some "Turn on the porch light at sunset") ]
  ∧ calls (V := unit) "create_automation"
      (snd (Prompt.click Prompt.typed)
       ++ snd (Prompt.click (fst (Prompt.click Prompt.typed)))) = 2
  ∧ Guided.isProcessing (fst (Guided.createAutomation_begin Guided.answered)) = true
  ∧ calls (V := unit) "create_automation"
      (snd (Guided.createAutomation_begin Guided.answered)
       ++ snd (Guided.createAutomation_begin
                 (fst (Guided.createAutomation_begin Guided.answered)))) = 2
  ∧ trace (Panel.generateAutomation_begin
             (component (Panel.generateAutomation_begin Panel.typed))) = [].
Proof. split_and!; vm_compute; reflexivity. Qed.

(** C6, as stated, fails: in the prompt panel a rejected creation call
    sets [automationCreated], so that [render] shows the result view,
    with the error text in the place of the success message. *)
Lemma prompt_rejection_shows_result_view :
  Prompt.create_automation Prompt.refusing_host (trim (Prompt.userInput Prompt.typed))
    = Rejected {| message := Some "quota exceeded" |}
  ∧ Prompt.automationCreated (fst (Prompt.createAutomation Prompt.refusing_host Prompt.typed))
    = true
  ∧ Prompt.render (fst (Prompt.createAutomation Prompt.refusing_host Prompt.typed))
    = Prompt.ResultView "Error creating automation: quota exceeded" Prompt.failed_yaml.
Proof. split_and!; vm_compute; reflexivity. Qed.

(** C6, amended.  A submission that was started ends with
    [isProcessing] false in each panel, whatever the host answers.  When
    the creation call is rejected, the panel of main.js sets the error
    message and renders the form with it, [automationCreated] staying
    false; the guided card appends the error to the conversation,
    [automationCreated] staying as it was; the prompt panel sets
    [automationCreated] and shows the error text in its result view. *)
Theorem submission_ends
    (hp : Panel.Host) (sp : Panel.State)
    (hq : Prompt.Host) (sq : Prompt.State)
    (v : Guided.Variant) (hg : Guided.Host) (sg : Guided.State) :
  Panel.refused sp = false →
  Panel.automationCreated sp = false →
  truthy (trim (Prompt.userInput sq)) = true →
  let wp := Panel.generateAutomation hp sp in
  let sq' := fst (Prompt.createAutomation hq sq) in
  let sg' := fst (Guided.createAutomation v hg sg) in
  Panel.isProcessing (component wp) = false
  ∧ Prompt.isProcessing sq' = false
  ∧ Guided.isProcessing sg' = false
  ∧ (∀ e, Panel.create_automation hp (Panel.userInput sp) = Rejected e →
     let text := "Error: " +:+ or_else (message e) Panel.generic_error in
     Panel.errorMessage (component wp) = Some text
     ∧ Panel.automationCreated (component wp) = false
     ∧ Panel.view (component wp)
       = Panel.Form (Panel.userInput sp) false "Create Automation" (Some text)
     ∧ last (trace wp) = Some (Render (Panel.view (component wp))))
  ∧ (∀ e, Guided.create_automation hg (Guided.fullDescription (Guided.automationSteps sg))
          = Rejected e →
     Guided.automationCreated sg' = Guided.automationCreated sg
     ∧ Guided.conversation sg'
       = Guided.conversation sg ++
         [ {| Guided.sender := Guided.assistant;
              Guided.content := Guided.error_prefix +:+ to_string (message e) |} ])
  ∧ (∀ e, Prompt.create_automation hq (trim (Prompt.userInput sq)) = Rejected e →
     Prompt.automationCreated sq' = true
     ∧ Prompt.render sq'
       = Prompt.ResultView
           ("Error creating automation: " +:+ or_else (message e) "Unknown error")
           Prompt.failed_yaml).
Proof.
  intros Href Hnot Hq wp sq' sg'. subst wp sq' sg'.
  split_and!.
  - by apply PanelFacts.generateAutomation_ends.
  - unfold Prompt.createAutomation, Prompt.createAutomation_begin. rewrite Hq. cbn [negb].
    cbn [Prompt.userInput Prompt.set_isProcessing].
    destruct (Prompt.create_automation hq _); [|reflexivity].
    unfold Prompt.onCreated. by destruct (Prompt.success_notification hq).
  - unfold Guided.createAutomation, Guided.createAutomation_begin.
    cbn [Guided.automationSteps Guided.set_isProcessing].
    destruct (Guided.create_automation hg _); [|reflexivity].
    unfold Guided.onCreated, Guided.onApiSettled.
    by destruct (Guided.automation_config hg), v.
  - intros e Hc text. subst text.
    rewrite (PanelFacts.path_create_rejected hp sp e Href Hc).
    cbn [component trace Panel.errorMessage Panel.automationCreated].
    unfold Panel.refused in Href. apply orb_false_elim in Href as [Hu _].
    apply negb_false_iff, trim_truthy in Hu.
    split_and!; [done|done| |by rewrite last_snoc].
    unfold Panel.view, Panel.renderForm.
    cbn [Panel.errorMessage Panel.automationCreated Panel.isProcessing Panel.userInput].
    by rewrite Hnot, Hu.
  - intros e Hc. unfold Guided.createAutomation, Guided.createAutomation_begin.
    cbn [Guided.automationSteps Guided.set_isProcessing]. by rewrite Hc.
  - intros e Hc. unfold Prompt.createAutomation, Prompt.createAutomation_begin.
    rewrite Hq. cbn [negb]. cbn [Prompt.userInput Prompt.set_isProcessing].
    by rewrite Hc.
Qed.

Lemma submission_ends_witness :
  Panel.isProcessing (component (Panel.generateAutomation Panel.refusing_host Panel.typed))
    = false
  ∧ Panel.view (component (Panel.generateAutomation Panel.refusing_host Panel.typed))
    = Panel.Form "Turn on the porch light at sunset" false "Create Automation"
        (Some "Error: quota exceeded")
  ∧ Prompt.render (fst (Prompt.createAutomation Prompt.refusing_host Prompt.typed))
    = Prompt.ResultView "Error creating automation: quota exceeded" Prompt.failed_yaml.
Proof.
  destruct (submission_ends
              Panel.refusing_host Panel.typed Prompt.refusing_host Prompt.typed
              Guided.Card
              {| Guided.create_automation := λ _, Rejected {| message := None |};
                 Guided.automation_config := Rejected {| message := None |} |}
              Guided.answered eq_refl eq_refl eq_refl)
    as (Hp & _ & _ & Hpanel & _ & Hprompt).
  destruct (Hpanel {| message := Some "quota exceeded" |} eq_refl) as (_ & _ & Hview & _).
  destruct (Hprompt {| message := Some "quota exceeded" |} eq_refl) as (_ & Hrender).
  split_and!; [exact Hp|exact Hview|exact Hrender].
Defined.

End SubmissionFacts.


(** ** More on the panel of main.js *)

Module PanelMore.
Import Js JsFacts Promise Panel PanelFacts.

Lemma refused_false (s : State) :
  refused s = false → truthy (trim (userInput s)) = true ∧ isProcessing s = false.
Proof.
  unfold refused. intros H. apply orb_false_elim in H as [Hu Hp].
  by apply negb_false_iff in Hu.
Qed.

(** The creation call is first: a started submission is the listeners run
    on the pending fields. *)
Lemma generateAutomation_pending (h : Host) (s : State) :
  refused s = false →
  generateAutomation h s
  = snd (listeners h (userInput s)
           {| component := set_errorMessage None (set_isProcessing true s);
              trace := [ Render (view (set_errorMessage None (set_isProcessing true s)));
                         CallService "ai_automation_creator" "create_automation"
                           (Some (userInput s)) ] |}).
Proof.
  intros Href. unfold generateAutomation, generateAutomation_begin. rewrite Href.
  unfold callCreate, render, and_then, emit, modify, get. reflexivity.
Qed.

(** The five ways a started submission can go, with the world at the end
    of each. *)
Lemma path_cases (h : Host) (s : State) :
  refused s = false →
  ∃ (final : State) (rest : list (Event View)),
    generateAutomation h s
    = {| component := final;
         trace := trace (generateAutomation_begin s) ++ rest ++ [ Render (view final) ] |}
    ∧ ((∃ e, final = {| userInput := userInput s; isProcessing := false;
                        automationYaml := automationYaml s;
                        automationCreated := automationCreated s;
                        errorMessage :=
                          Some ("Error: " +:+ or_else (message e) generic_error) |})
       ∨ (∃ y, final = {| userInput := userInput s; isProcessing := false;
                          automationYaml := y; automationCreated := true;
                          errorMessage := None |}))
    ∧ (rest = []
       ∨ rest = [ SetTimeout 2000;
                  CallService "ai_automation_creator" "get_automation_yaml" None ]
       ∨ rest = [ SetTimeout 2000;
                  CallService "ai_automation_creator" "get_automation_yaml" None;
                  SetTimeout 1000;
                  CallService "ai_automation_creator" "get_automation_yaml" None ]).
Proof.
  intros Href.
  destruct (create_automation h (userInput s)) as [r|e] eqn:Hc.
  2: { rewrite (path_create_rejected h s e Href Hc).
       eexists _, []. split_and!; [reflexivity|left; by eexists|by left]. }
  destruct (get_automation_yaml h 0) as [r1|e] eqn:Hg.
  2: { rewrite (path_first_rejected h s r e Href Hc Hg).
       eexists _, [_; _]. split_and!; [reflexivity|left; by eexists|right; by left]. }
  destruct (result_yaml r1) as [y|] eqn:Hy.
  { rewrite (path_first_result h s r r1 y Href Hc Hg Hy).
    eexists _, [_; _]. split_and!; [reflexivity|right; by eexists|right; by left]. }
  destruct (get_automation_yaml h 1) as [r2|e] eqn:Hg2.
  - rewrite (path_second_result h s r r1 r2 Href Hc Hg Hy Hg2).
    eexists _, [_; _; _; _]. split_and!; [reflexivity|right; by eexists|right; by right].
  - rewrite (path_second_rejected h s r r1 e Href Hc Hg Hy Hg2).
    eexists _, [_; _; _; _]. split_and!; [reflexivity|left; by eexists|right; by right].
Qed.

(** X1.  With a text that is empty or made of white space only,
    [generateAutomation] returns at once: no rendering, no call, the
    fields as they were. *)
Theorem generateAutomation_blank (h : Host) (s : State) :
  all_white_space (userInput s) = true →
  generateAutomation h s = {| component := s; trace := [] |}
  ∧ generateAutomation_begin s = {| component := s; trace := [] |}.
Proof.
  intros Hws. apply trim_empty in Hws.
  unfold generateAutomation, generateAutomation_begin, refused. by rewrite Hws.
Qed.

Lemma generateAutomation_blank_witness :
  generateAutomation eager_host (set_userInput "  " constructor)
    = {| component := set_userInput "  " constructor; trace := [] |}
  ∧ generateAutomation_begin (set_userInput "  " constructor)
    = {| component := set_userInput "  " constructor; trace := [] |}.
Proof.
  apply (generateAutomation_blank eager_host (set_userInput "  " constructor)).
  reflexivity.
Defined.

(** X2.  When the first [get_automation_yaml] resolves without a text and
    the second, made 1000 ms later, resolves with one, the panel shows
    the text of the second call as the result. *)
Theorem generateAutomation_retry_text
    (h : Host) (s : State) (r r1 r2 : Result) (y : string) :
  refused s = false →
  create_automation h (userInput s) = Fulfilled r →
  get_automation_yaml h 0 = Fulfilled r1 →
  result_yaml r1 = None →
  get_automation_yaml h 1 = Fulfilled r2 →
  result_yaml r2 = Some y →
  let w := generateAutomation h s in
  component w
    = {| userInput := userInput s; isProcessing := false; automationYaml := y;
         automationCreated := true; errorMessage := None |}
  ∧ trace w
    = trace (generateAutomation_begin s) ++
      [ SetTimeout 2000;
        CallService "ai_automation_creator" "get_automation_yaml" None;
        SetTimeout 1000;
        CallService "ai_automation_creator" "get_automation_yaml" None;
        Render (ResultView y) ]
  ∧ calls "get_automation_yaml" (trace w) = 2.
Proof.
  intros Href Hc Hg Hy Hg2 Hy2 w. subst w.
  rewrite (path_second_result h s r r1 r2 Href Hc Hg Hy Hg2), Hy2.
  destruct (pending_trace s Href) as [v ->].
  split_and!; reflexivity.
Qed.

Lemma generateAutomation_retry_text_witness :
  let w := generateAutomation Sessions.late_host typed in
  component w
    = {| userInput := userInput typed; isProcessing := false;
         automationYaml := "alias: porch light";
         automationCreated := true; errorMessage := None |}
  ∧ trace w
    = trace (generateAutomation_begin typed) ++
      [ SetTimeout 2000;
        CallService "ai_automation_creator" "get_automation_yaml" None;
        SetTimeout 1000;
        CallService "ai_automation_creator" "get_automation_yaml" None;
        Render (ResultView "alias: porch light") ]
  ∧ calls "get_automation_yaml" (trace w) = 2.
Proof.
  apply (generateAutomation_retry_text Sessions.late_host typed None None
           (Some {| yaml := Some "alias: porch light" |}) "alias: porch light");
    reflexivity.
Defined.

(** X3.  A rejected first [get_automation_yaml] is not tried again: the
    panel sets the error message from that rejection and stays on the
    form, after one creation call and one [get_automation_yaml] call. *)
Theorem generateAutomation_fetch_rejected
    (h : Host) (s : State) (r : Result) (e : Error) :
  refused s = false →
  create_automation h (userInput s) = Fulfilled r →
  get_automation_yaml h 0 = Rejected e →
  let w := generateAutomation h s in
  component w
    = {| userInput := userInput s; isProcessing := false; automationYaml := automationYaml s;
         automationCreated := automationCreated s;
         errorMessage := Some ("Error: " +:+ or_else (message e) generic_error) |}
  ∧ calls "create_automation" (trace w) = 1
  ∧ calls "get_automation_yaml" (trace w) = 1
  ∧ timeouts (trace w) = 1.
Proof.
  intros Href Hc Hg w. subst w.
  rewrite (path_first_rejected h s r e Href Hc Hg).
  destruct (pending_trace s Href) as [v ->].
  split_and!; reflexivity.
Qed.

Lemma generateAutomation_fetch_rejected_witness :
  let w := generateAutomation Sessions.failing_fetch_host typed in
  component w
    = {| userInput := userInput typed; isProcessing := false;
         automationYaml := automationYaml typed;
         automationCreated := automationCreated typed;
         errorMessage :=
           Some ("Error: " +:+ or_else (Some "service not found") generic_error) |}
  ∧ calls "create_automation" (trace w) = 1
  ∧ calls "get_automation_yaml" (trace w) = 1
  ∧ timeouts (trace w) = 1.
Proof.
  apply (generateAutomation_fetch_rejected Sessions.failing_fetch_host typed None
           {| message := Some "service not found" |});
    reflexivity.
Defined.

(** X4.  When the first [get_automation_yaml] resolves without a text and
    the second is rejected, the panel ends on the error message, not on
    the result view, even though the creation call had resolved. *)
Theorem generateAutomation_retry_rejected
    (h : Host) (s : State) (r r1 : Result) (e : Error) :
  refused s = false →
  create_automation h (userInput s) = Fulfilled r →
  get_automation_yaml h 0 = Fulfilled r1 →
  result_yaml r1 = None →
  get_automation_yaml h 1 = Rejected e →
  let w := generateAutomation h s in
  component w
    = {| userInput := userInput s; isProcessing := false; automationYaml := automationYaml s;
         automationCreated := automationCreated s;
         errorMessage := Some ("Error: " +:+ or_else (message e) generic_error) |}
  ∧ calls "create_automation" (trace w) = 1
  ∧ calls "get_automation_yaml" (trace w) = 2.
Proof.
  intros Href Hc Hg Hy Hg2 w. subst w.
  rewrite (path_second_rejected h s r r1 e Href Hc Hg Hy Hg2).
  destruct (pending_trace s Href) as [v ->].
  split_and!; reflexivity.
Qed.

Lemma generateAutomation_retry_rejected_witness :
  let w := generateAutomation Sessions.failing_retry_host typed in
  component w
    = {| userInput := userInput typed; isProcessing := false;
         automationYaml := automationYaml typed;
         automationCreated := automationCreated typed;
         errorMessage := Some "Error: Failed to create automation" |}
  ∧ calls "create_automation" (trace w) = 1
  ∧ calls "get_automation_yaml" (trace w) = 2.
Proof.
  apply (generateAutomation_retry_rejected Sessions.failing_retry_host typed None None
           {| message := None |});
    reflexivity.
Defined.



(** X6.  A submission started from the form ends in one of two ways and
    never in both: on the result view with no error message, or on the
    form with an error message, the button enabled again and the text
    still in the field. *)
Theorem generateAutomation_outcome (h : Host) (s : State) :
  refused s = false →
  automationCreated s = false →
  let final := component (generateAutomation h s) in
  (automationCreated final = true
   ∧ errorMessage final = None
   ∧ view final = ResultView (automationYaml final))
  ∨ (automationCreated final = false
     ∧ ∃ e, errorMessage final = Some ("Error: " +:+ or_else (message e) generic_error)
          ∧ view final
            = Form (userInput s) false "Create Automation"
                (Some ("Error: " +:+ or_else (message e) generic_error))).
Proof.
  intros Href Hnot final. subst final.
  destruct (path_cases h s Href) as (final & rest & -> & [[e ->]|[y ->]] & _);
    cbn [component]; [right|left].
  - split; [done|]. exists e. split; [reflexivity|].
    destruct (refused_false s Href) as [Hu _].
    unfold view, renderForm. cbn [automationCreated isProcessing userInput errorMessage].
    rewrite Hnot. destruct (userInput s); [done|reflexivity].
  - split_and!; reflexivity.
Qed.

Lemma generateAutomation_outcome_witness :
  let final := component (generateAutomation Sessions.failing_fetch_host typed) in
  (automationCreated final = true
   ∧ errorMessage final = None
   ∧ view final = ResultView (automationYaml final))
  ∨ (automationCreated final = false
     ∧ ∃ e, errorMessage final = Some ("Error: " +:+ or_else (message e) generic_error)
          ∧ view final
            = Form (userInput typed) false "Create Automation"
                (Some ("Error: " +:+ or_else (message e) generic_error))).
Proof.
  apply (generateAutomation_outcome Sessions.failing_fetch_host typed); reflexivity.
Defined.

(** X7.  After a submission, however it ended, [reset] brings the fields
    back to those of the constructor and renders the empty form, whose
    button is disabled. *)
Theorem reset_after_submission (h : Host) (s : State) :
  refused s = false →
  reset (component (generateAutomation h s))
  = {| component := constructor;
       trace := [ Render (Form "" true "Create Automation" None) ] |}.
Proof.
  intros Href.
  destruct (path_cases h s Href) as (final & rest & -> & [[e ->]|[y ->]] & _);
    reflexivity.
Qed.

Lemma reset_after_submission_witness :
  reset (component (generateAutomation eager_host typed))
  = {| component := constructor;
       trace := [ Render (Form "" true "Create Automation" None) ] |}.
Proof. apply (reset_after_submission eager_host typed). reflexivity. Defined.

(** X8.  A failed submission leaves nothing behind for the next one: the
    form can be submitted again with the same text, and the second
    submission goes exactly as if the first had not been made, the old
    error message being cleared before the creation call. *)
Theorem generateAutomation_again (h1 h2 : Host) (s : State) (e : Error) :
  refused s = false →
  create_automation h1 (userInput s) = Rejected e →
  let failed := component (generateAutomation h1 s) in
  refused failed = false
  ∧ generateAutomation h2 failed = generateAutomation h2 s.
Proof.
  intros Href Hc failed. subst failed.
  rewrite (path_create_rejected h1 s e Href Hc). cbn [component].
  destruct (refused_false s Href) as [Hu Hp].
  assert (refused {| userInput := userInput s; isProcessing := false;
                     automationYaml := automationYaml s;
                     automationCreated := automationCreated s;
                     errorMessage := Some ("Error: " +:+ or_else (message e) generic_error) |}
          = false) as Href'.
  { unfold refused. cbn [userInput isProcessing]. by rewrite Hu. }
  split; [exact Href'|].
  rewrite (generateAutomation_pending h2 _ Href'), (generateAutomation_pending h2 s Href).
  unfold set_errorMessage, set_isProcessing.
  cbn [userInput isProcessing automationYaml automationCreated errorMessage].
  reflexivity.
Qed.

Lemma generateAutomation_again_witness :
  refused (component (generateAutomation refusing_host typed)) = false
  ∧ generateAutomation eager_host (component (generateAutomation refusing_host typed))
    = generateAutomation eager_host typed.
Proof.
  apply (generateAutomation_again refusing_host eager_host typed
           {| message := Some "quota exceeded" |}); reflexivity.
Defined.

Lemma append_cons (c : Ascii.ascii) (a b : string) : String c a +:+ b = String c (a +:+ b).
Proof. reflexivity. Qed.

Lemma append_nil_l (b : string) : "" +:+ b = b.
Proof. reflexivity. Qed.

Lemma append_empty (a b : string) : a +:+ b = "" → a = "" ∧ b = "".
Proof. destruct a; [by rewrite append_nil_l|by rewrite append_cons]. Qed.

Lemma startsWith_spec (s pre : string) :
  startsWith s pre = true ↔ ∃ post, s = pre +:+ post.
Proof.
  revert s. induction pre as [|p pre IH]; intros s.
  - split; [intros _; by exists s|]. intros _. by destruct s.
  - destruct s as [|c s]; cbn [startsWith].
    + split; [done|]. intros [post H]. by rewrite append_cons in H.
    + destruct (Ascii.eqb_spec c p) as [->|Hne].
      * rewrite IH. split; intros [post H]; exists post.
        -- by rewrite append_cons, H.
        -- rewrite append_cons in H. by injection H.
      * split; [done|]. intros [post H]. rewrite append_cons in H. by injection H.
Qed.

(** [key.includes(sub)] holds exactly when [sub] occurs in [key]. *)
Lemma includes_spec (s sub : string) :
  includes s sub = true ↔ ∃ pre post, s = pre +:+ sub +:+ post.
Proof.
  induction s as [|c s IH]; cbn [includes].
  - rewrite orb_false_r, startsWith_spec. split.
    + intros [post H]. by exists "", post.
    + intros (pre & post & H). symmetry in H.
      apply append_empty in H as [-> H]. by exists post.
  - rewrite orb_true_iff, startsWith_spec, IH. split.
    + intros [[post H]|(pre & post & H)].
      * by exists "", post.
      * exists (String c pre), post. by rewrite append_cons, H.
    + intros ([|c' pre] & post & H).
      * left. by exists post.
      * right. rewrite append_cons in H. injection H as _ H. by exists pre, post.
Qed.

(** X9.  When neither [get_automation_yaml] call resolves with a text, the
    message shown in its place is the one that says the automation was
    created successfully exactly when some key of [hass.states] contains
    [persistent_notification.ai_automation_creator_success]; otherwise it
    is the one that says the automation has been processed. *)
Theorem generateAutomation_corroborated (h : Host) (s : State) (r r1 r2 : Result) :
  refused s = false →
  create_automation h (userInput s) = Fulfilled r →
  get_automation_yaml h 0 = Fulfilled r1 →
  result_yaml r1 = None →
  get_automation_yaml h 1 = Fulfilled r2 →
  result_yaml r2 = None →
  let text := automationYaml (component (generateAutomation h s)) in
  (text = confirmed_message ∨ text = processed_message)
  ∧ (text = confirmed_message
     ↔ ∃ key pre post, In key (states h) ∧ key = pre +:+ success_marker +:+ post).
Proof.
  intros Href Hc Hg Hy Hg2 Hy2 text. subst text.
  rewrite (path_second_result h s r r1 r2 Href Hc Hg Hy Hg2), Hy2.
  cbn [component automationYaml].
  destruct (existsb _ (states h)) eqn:E.
  - split; [by left|]. split; [|done]. intros _.
    apply existsb_exists in E as (key & Hin & Hkey).
    apply includes_spec in Hkey as (pre & post & Hkey). by exists key, pre, post.
  - split; [by right|]. split; [done|].
    intros (key & pre & post & Hin & Hkey).
    assert (existsb (λ key, includes key success_marker) (states h) = true) as E'.
    { apply existsb_exists. exists key. split; [done|].
      apply includes_spec. by exists pre, post. }
    congruence.
Qed.

Lemma generateAutomation_corroborated_witness :
  let text := automationYaml (component (generateAutomation silent_host typed)) in
  (text = confirmed_message ∨ text = processed_message)
  ∧ (text = confirmed_message
     ↔ ∃ key pre post,
         In key (states silent_host) ∧ key = pre +:+ success_marker +:+ post).
Proof.
  apply (generateAutomation_corroborated silent_host typed None None None); reflexivity.
Defined.

End PanelMore.


(** ** More on the guided card *)

Module GuidedMore.
Import Js JsFacts Guided GuidedFacts Sessions.

(** What a valid [handleSend] leaves: the index moves by one in both
    branches, since the last step has index [length - 1]. *)
Lemma handleSend_valid (s : State) (st : Step) :
  automationSteps s !! currentStep s = Some st →
  truthy (trim (userInput s)) = true →
  ∃ tail,
    handleSend s
    = (Normal (),
       {| conversation :=
            conversation s ++ {| sender := user; content := userInput s |} :: tail;
          userInput := "";
          isProcessing := isProcessing s;
          automationYaml := automationYaml s;
          automationCreated := automationCreated s;
          currentStep := currentStep s + 1;
          automationSteps :=
            <[currentStep s := set_answer (userInput s) st]> (automationSteps s) |}).
Proof.
  intros Hst Hne. pose proof (lookup_lt_Some _ _ _ Hst) as Hlt.
  unfold handleSend. rewrite Hne. cbn [negb].
  cbn [automationSteps currentStep userInput conversation
       set_conversation set_automationSteps set_userInput set_currentStep].
  rewrite Hst, length_insert.
  destruct (Z.of_nat (currentStep s) <? Z.of_nat (length (automationSteps s)) - 1)%Z eqn:E.
  - apply before_last in E.
    destruct (lookup_lt_is_Some_2 (automationSteps s) (currentStep s + 1) E) as [next Hnext].
    rewrite list_lookup_insert_ne, Hnext by lia.
    eexists [_]. unfold set_conversation.
    cbn [automationSteps currentStep userInput conversation isProcessing
         automationCreated automationYaml].
    by rewrite <- List.app_assoc.
  - assert (length (automationSteps s) = currentStep s + 1) as ->.
    { apply not_true_iff_false in E. rewrite before_last in E. lia. }
    exists []. reflexivity.
Qed.

Lemma run_length (m : Handler) (s : State) :
  length (automationSteps (run m s)) = length (automationSteps s).
Proof.
  rewrite <- (length_map question (automationSteps (run m s))), run_questions.
  apply length_map.
Qed.

Lemma run_bound (m : Handler) (s : State) :
  currentStep s ≤ length (automationSteps s) →
  currentStep (run m s) ≤ length (automationSteps (run m s)).
Proof.
  intros Hle. rewrite run_length.
  destruct m as [v|value| |v h| ].
  - by destruct (run_other (ConnectedCallback v) s) as [-> _].
  - by destruct (run_other (OnInput value) s) as [-> _].
  - cbn [run].
    destruct (truthy (trim (userInput s))) eqn:Hne.
    2: { unfold handleSend. by rewrite Hne. }
    destruct (automationSteps s !! currentStep s) as [st|] eqn:Hst.
    + destruct (handleSend_valid s st Hst Hne) as [tail ->].
      cbn [snd currentStep]. apply lookup_lt_Some in Hst. lia.
    + unfold handleSend. rewrite Hne. cbn [negb].
      cbn [automationSteps currentStep set_conversation]. by rewrite Hst.
  - by destruct (run_other (CreateAutomation v h) s) as [-> _].
  - cbn [run]. unfold startOver.
    cbn [automationSteps set_automationSteps set_currentStep set_automationCreated
         set_automationYaml set_userInput set_conversation].
    destruct (_ !! 0);
      cbn [snd currentStep set_conversation set_automationSteps set_currentStep]; lia.
Qed.

Lemma runs_cons (m : Handler) (ms : list Handler) (s : State) :
  runs (m :: ms) s = runs ms (run m s).
Proof. reflexivity. Qed.

Lemma runs_bound (ms : list Handler) (s : State) :
  currentStep s ≤ length (automationSteps s) →
  currentStep (runs ms s) ≤ length (automationSteps (runs ms s)).
Proof.
  revert s. induction ms as [|m ms IH]; intros s Hle; [done|].
  rewrite runs_cons. by apply IH, run_bound.
Qed.

Lemma reached_bounds (ms : list Handler) :
  map question (automationSteps (runs ms constructor)) = questions
  ∧ length (automationSteps (runs ms constructor)) = 5
  ∧ currentStep (runs ms constructor) ≤ 5.
Proof.
  pose proof (runs_questions ms constructor) as Hq.
  assert (length (automationSteps (runs ms constructor)) = 5) as Hlen.
  { rewrite <- (length_map question), Hq. reflexivity. }
  split_and!; [exact Hq|exact Hlen|].
  rewrite <- Hlen. apply runs_bound. cbn. lia.
Qed.

(** X10.  Whatever handlers run and in whatever order, the card keeps its
    five questions in their order and the step index stays within 0 and
    5. *)
Theorem reached_invariant (ms : list Handler) :
  map question (automationSteps (runs ms constructor))
    = [ "What would you like this automation to do? (Describe in natural language)";
        "When should this automation trigger? (Time, event, condition, etc.)";
        "Which devices or entities should be involved?";
        "Are there any conditions that should be met before the automation runs?";
        "Is there anything else I should know about this automation?" ]
  ∧ length (automationSteps (runs ms constructor)) = 5
  ∧ currentStep (runs ms constructor) ≤ 5.
Proof. exact (reached_bounds ms). Qed.

(** X11.  Once every step is answered, [handleSend] with a text that is
    not blank appends the user message and then ends on a [TypeError],
    when it writes the answer of a step that does not exist: the text
    stays in the input, the index and the answers are as before. *)
Theorem handleSend_complete (s : State) :
  length (automationSteps s) ≤ currentStep s →
  trim (userInput s) ≠ "" →
  handleSend s
  = (Abrupt TypeError,
     set_conversation
       (conversation s ++ [ {| sender := user; content := userInput s |} ]) s).
Proof.
  intros Hge Hne. apply truthy_true in Hne.
  unfold handleSend. rewrite Hne. cbn [negb].
  cbn [automationSteps currentStep set_conversation].
  by rewrite (lookup_ge_None_2 _ _ Hge).
Qed.

Lemma handleSend_complete_witness :
  handleSend (onInput "One more thing" answered)
  = (Abrupt TypeError,
     set_conversation
       (conversation (onInput "One more thing" answered)
        ++ [ {| sender := user; content := userInput (onInput "One more thing" answered) |} ])
       (onInput "One more thing" answered)).
Proof.
  apply (handleSend_complete (onInput "One more thing" answered)).
  - vm_compute. lia.
  - vm_compute. discriminate.
Defined.

Lemma answer_insert (l : list Step) (i : nat) (st : Step) (t : string) :
  l !! i = Some st →
  map answer (<[i := set_answer t st]> l) = <[i := t]> (map answer l)
  ∧ map question (<[i := set_answer t st]> l) = map question l.
Proof.
  revert i. induction l as [|x l IH]; intros [|i] H; try done.
  - injection H as ->. by split.
  - destruct (IH i H) as [Ha Hq].
    split; cbn; f_equal; [exact Ha|exact Hq].
Qed.

(** Answering [ts] from step [i] writes [ts] into the answers from [i]
    on and leaves the others. *)
Lemma answering_from (ts : list string) (s : State) :
  Forall (λ t, trim t ≠ "") ts →
  currentStep s + length ts ≤ length (automationSteps s) →
  currentStep (runs (answering ts) s) = currentStep s + length ts
  ∧ map question (automationSteps (runs (answering ts) s))
    = map question (automationSteps s)
  ∧ map answer (automationSteps (runs (answering ts) s))
    = take (currentStep s) (map answer (automationSteps s)) ++ ts
      ++ drop (currentStep s + length ts) (map answer (automationSteps s))
  ∧ isProcessing (runs (answering ts) s) = isProcessing s
  ∧ automationCreated (runs (answering ts) s) = automationCreated s.
Proof.
  revert s. induction ts as [|t ts IH]; intros s Hts Hlen.
  - cbn [answering flat_map runs fold_left length]. rewrite Nat.add_0_r.
    split_and!; try done. cbn [app]. by rewrite take_drop.
  - apply Forall_cons in Hts as [Ht Hts]. cbn [length] in Hlen.
    change (answering (t :: ts)) with (OnInput t :: HandleSend :: answering ts).
    rewrite !runs_cons. cbn [run].
    assert (currentStep s < length (automationSteps s)) as Hlt by lia.
    destruct (lookup_lt_is_Some_2 _ _ Hlt) as [st Hst].
    apply truthy_true in Ht.
    destruct (handleSend_valid (onInput t s) st Hst Ht) as [tail ->].
    cbn [snd]. unfold onInput.
    cbn [currentStep automationSteps userInput isProcessing automationCreated set_userInput].
    set (s1 := {| conversation := _; currentStep := currentStep s + 1 |}).
    destruct (IH s1 Hts) as (Hc & Hq & Ha & Hp & Hd).
    { subst s1. cbn [currentStep automationSteps]. rewrite length_insert. lia. }
    subst s1. cbn [currentStep automationSteps isProcessing automationCreated] in *.
    destruct (answer_insert (automationSteps s) (currentStep s) st t Hst) as [Hia Hiq].
    rewrite Hc, Hq, Ha, Hp, Hd, Hia, Hiq. cbn [length].
    split_and!; try done; [lia|].
    assert (currentStep s < length (map answer (automationSteps s))) as Hlt'.
    { by rewrite length_map. }
    rewrite Nat.add_1_r, (take_S_r _ _ t), take_insert_ge, drop_insert_lt by
      (try lia; by apply list_lookup_insert_eq).
    rewrite <- List.app_assoc. cbn [app].
    by replace (S (currentStep s) + length ts) with (currentStep s + S (length ts)) by lia.
Qed.

Lemma answered_steps_five (a b c d e : string) :
  map question (answered_steps [a; b; c; d; e]) = questions
  ∧ map answer (answered_steps [a; b; c; d; e]) = [a; b; c; d; e].
Proof. by split. Qed.

(** X12.  Starting from the constructor and [connectedCallback], typing
    and sending five texts that are not blank records them as the answers
    of the five steps, in order, and brings the index to 5; the
    description that [createAutomation] then sends is the five questions,
    each followed by its text. *)
Theorem answering_five (v : Variant) (ts : list string) :
  length ts = 5 →
  Forall (λ t, trim t ≠ "") ts →
  let s := runs (ConnectedCallback v :: answering ts) constructor in
  currentStep s = 5
  ∧ automationSteps s = answered_steps ts
  ∧ snd (createAutomation_begin s)
    = [ CallService "ai_automation_creator" "create_automation"
          (Some (blocks (answered_steps ts))) ].
Proof.
  intros Hlen Hts s. subst s. rewrite runs_cons.
  set (s0 := run (ConnectedCallback v) constructor).
  assert (currentStep s0 = 0 ∧ automationSteps s0 = automationSteps constructor) as [Hc0 Hs0].
  { subst s0. by destruct v. }
  destruct (answering_from ts s0 Hts) as (Hc & Hq & Ha & _).
  { rewrite Hc0, Hs0, Hlen. cbn. lia. }
  rewrite Hc0, Hs0, Hlen in *. cbn [plus] in *.
  assert (automationSteps (runs (answering ts) s0) = answered_steps ts) as Hsteps.
  { destruct ts as [|a [|b [|c [|d [|e [|f ts]]]]]]; try done.
    destruct (answered_steps_five a b c d e) as [Hq' Ha'].
    apply steps_eq; [by rewrite Hq, Hq'|by rewrite Ha, Ha']. }
  split_and!; [done|done|].
  unfold createAutomation_begin. cbn [snd automationSteps set_isProcessing].
  by rewrite Hsteps, fullDescription_blocks.
Qed.

Lemma answering_five_witness :
  let s := runs (ConnectedCallback PanelCopy
                 :: answering [ "Lights on"; "At dusk"; "light.hall"; "None"; "No" ])
             constructor in
  currentStep s = 5
  ∧ automationSteps s = answered_steps [ "Lights on"; "At dusk"; "light.hall"; "None"; "No" ]
  ∧ snd (createAutomation_begin s)
    = [ CallService "ai_automation_creator" "create_automation"
          (Some (blocks (answered_steps [ "Lights on"; "At dusk"; "light.hall"; "None"; "No" ]))) ].
Proof.
  apply (answering_five PanelCopy [ "Lights on"; "At dusk"; "light.hall"; "None"; "No" ]).
  - reflexivity.
  - repeat constructor; vm_compute; discriminate.
Defined.

Lemma run_prefix (m : Handler) (s : State) :
  (∀ v, m ≠ ConnectedCallback v) →
  m ≠ StartOver →
  conversation s `prefix_of` conversation (run m s).
Proof.
  intros Hc Ho. destruct m as [v|value| |v h| ]; try done; cbn [run].
  - by destruct (Hc v).
  - unfold handleSend.
    destruct (truthy (trim (userInput s))); cbn [negb snd]; [|done].
    cbn -[lookup insert Z.of_nat Z.ltb Z.sub length].
    destruct (automationSteps s !! currentStep s) as [st|];
      [|by apply prefix_app_r].
    destruct (_ <? _)%Z;
      [destruct (<[currentStep s := set_answer (userInput s) st]> (automationSteps s)
                   !! (currentStep s + 1))|];
      cbn [snd conversation]; repeat apply prefix_app_r; done.
  - unfold createAutomation, createAutomation_begin.
    cbn [automationSteps set_isProcessing].
    destruct (create_automation h _).
    + unfold onCreated, onApiSettled.
      destruct (automation_config h), v; by apply prefix_app_r.
    + by apply prefix_app_r.
Qed.

(** X13.  The conversation only grows under the input listener,
    [handleSend] and [createAutomation] with its listeners: what was in
    it stays, in order, at its head, also when [handleSend] ends on an
    exception.  Only [startOver] and [connectedCallback] replace it. *)
Theorem conversation_grows (m : Handler) (s : State) :
  (∀ v, m ≠ ConnectedCallback v) →
  m ≠ StartOver →
  conversation s `prefix_of` conversation (run m s).
Proof. exact (run_prefix m s). Qed.

Lemma conversation_grows_witness :
  conversation (onInput "One more thing" answered)
  `prefix_of` conversation (run HandleSend (onInput "One more thing" answered)).
Proof.
  apply (conversation_grows HandleSend (onInput "One more thing" answered)); discriminate.
Defined.

Lemma render_fails (s : State) :
  render s = Abrupt TypeError
  ↔ automationCreated s = false ∧ isProcessing s = false
    ∧ length (automationSteps s) ≤ currentStep s.
Proof.
  unfold render, renderConversation.
  destruct (automationCreated s), (isProcessing s); try (split; [done|by intros (? & ? & ?)]).
  destruct (automationSteps s !! currentStep s) as [st|] eqn:Hst.
  - split; [done|]. intros (_ & _ & Hge).
    apply lookup_lt_Some in Hst. lia.
  - split; [|done]. intros _. split_and!; try done. by apply lookup_ge_None_1.
Qed.

(** X14.  [render] ends on a [TypeError] exactly when no automation has
    been created, nothing is being processed and the step index has
    reached the number of steps; for a card reached from the constructor
    that is when the index is 5. *)
Theorem render_fails_when_complete :
  (∀ s, render s = Abrupt TypeError
        ↔ automationCreated s = false ∧ isProcessing s = false
          ∧ length (automationSteps s) ≤ currentStep s)
  ∧ (∀ ms, render (runs ms constructor) = Abrupt TypeError
           ↔ automationCreated (runs ms constructor) = false
             ∧ isProcessing (runs ms constructor) = false
             ∧ currentStep (runs ms constructor) = 5).
Proof.
  split.
  - exact render_fails.
  - intros ms. rewrite render_fails.
    destruct (reached_bounds ms) as (_ & -> & Hle). intuition lia.
Qed.

Lemma render_fails_when_complete_witness :
  render answered = Abrupt TypeError
  ↔ automationCreated answered = false ∧ isProcessing answered = false
    ∧ length (automationSteps answered) ≤ currentStep answered.
Proof. exact (proj1 render_fails_when_complete answered). Defined.

(** X15.  When the creation call of the guided card is rejected, the
    error is appended to the conversation as an assistant message and the
    card stops processing, but with every step answered [render] then
    ends on a [TypeError]: the message is in the fields and not on the
    screen. *)
Theorem createAutomation_rejected_unrendered
    (v : Variant) (h : Host) (s : State) (e : Error) :
  automationCreated s = false →
  length (automationSteps s) ≤ currentStep s →
  create_automation h (fullDescription (automationSteps s)) = Rejected e →
  let s' := fst (createAutomation v h s) in
  last (conversation s')
    = Some {| sender := assistant; content := error_prefix +:+ to_string (message e) |}
  ∧ isProcessing s' = false
  ∧ render s' = Abrupt TypeError.
Proof.
  intros Hnot Hge Hc s'. subst s'.
  unfold createAutomation, createAutomation_begin.
  cbn [automationSteps set_isProcessing]. rewrite Hc.
  cbn [fst]. unfold onCreateRejected.
  split_and!; [apply last_snoc|reflexivity|].
  by apply render_fails.
Qed.

Lemma createAutomation_rejected_unrendered_witness :
  let s' := fst (createAutomation Card guided_refusing_host answered) in
  last (conversation s')
    = Some {| sender := assistant;
              content := error_prefix +:+ to_string (Some "quota exceeded") |}
  ∧ isProcessing s' = false
  ∧ render s' = Abrupt TypeError.
Proof.
  apply (createAutomation_rejected_unrendered Card guided_refusing_host answered
           {| message := Some "quota exceeded" |}).
  - vm_compute. reflexivity.
  - vm_compute. lia.
  - reflexivity.
Defined.



(** X17.  After [startOver], a card that is not processing shows its one
    message, the first question with an empty input and the Send button
    disabled, and no Create Automation button. *)
Theorem startOver_view (s : State) (first : Step) :
  automationSteps s !! 0 = Some first →
  isProcessing s = false →
  render (snd (startOver s))
  = Normal (Conversation
              {| messages := [ {| sender := assistant; content := question first |} ];
                 prompting := CurrentQuestion (question first) "" true;
                 createButton := None |}).
Proof.
  intros Hfirst Hp.
  unfold startOver, set_conversation, set_userInput, set_automationYaml,
    set_automationCreated, set_currentStep, set_automationSteps.
  cbn [automationSteps isProcessing conversation userInput automationYaml automationCreated
       currentStep].
  rewrite list_lookup_fmap, Hfirst. cbn [fmap option_fmap option_map snd].
  unfold render, renderConversation.
  cbn [automationSteps automationCreated isProcessing currentStep conversation userInput].
  rewrite Hp, list_lookup_fmap, Hfirst. cbn [fmap option_fmap option_map].
  destruct (automationSteps s) as [|st l]; [done|].
  reflexivity.
Qed.

Lemma startOver_view_witness :
  render (snd (startOver answered))
  = Normal (Conversation
              {| messages :=
                   [ {| sender := assistant;
                        content := "What would you like this automation to do? (Describe in natural language)" |} ];
                 prompting :=
                   CurrentQuestion
                     "What would you like this automation to do? (Describe in natural language)"
                     "" true;
                 createButton := None |}).
Proof.
  apply (startOver_view answered
           {| question := "What would you like this automation to do? (Describe in natural language)";
              answer := "Turn on the porch light" |});
    vm_compute; reflexivity.
Defined.

Lemma run_log (m : Handler) (s : State) :
  (∃ first, automationSteps s !! 0 = Some first) →
  conversation s ≠ [] → conversation (run m s) ≠ [].
Proof.
  intros [first Hfirst] Hne.
  destruct m as [v|value| |v h| ].
  - cbn [run]. unfold connectedCallback. rewrite Hfirst.
    destruct v, (conversation s) eqn:E; cbn [snd conversation set_conversation]; congruence.
  - done.
  - destruct (run_prefix HandleSend s) as [k ->]; [done..|].
    by destruct (conversation s).
  - destruct (run_prefix (CreateAutomation v h) s) as [k ->]; [done..|].
    by destruct (conversation s).
  - cbn [run]. unfold startOver.
    cbn [automationSteps set_automationSteps set_currentStep set_automationCreated
         set_automationYaml set_userInput set_conversation].
    by rewrite list_lookup_fmap, Hfirst.
Qed.

Lemma runs_log (ms : list Handler) (s : State) :
  map question (automationSteps s) = questions →
  conversation s ≠ [] →
  conversation (runs ms s) ≠ [].
Proof.
  revert s. induction ms as [|m ms IH]; intros s Hq Hne; [done|].
  rewrite runs_cons. apply IH.
  - by rewrite run_questions.
  - apply run_log; [|done].
    destruct (automationSteps s) as [|first l]; [done|]. by exists first.
Qed.

(** X18.  In the copy of main.js, once the card has been connected,
    [connectedCallback] changes nothing however the card has been used
    since: the conversation is never empty again, so it is never seeded a
    second time. *)
Theorem reconnect_keeps (v : Variant) (ms : list Handler) :
  connectedCallback PanelCopy (runs (ConnectedCallback v :: ms) constructor)
  = (Normal (), runs (ConnectedCallback v :: ms) constructor).
Proof.
  assert (conversation (runs (ConnectedCallback v :: ms) constructor) ≠ []) as Hne.
  { rewrite runs_cons. apply runs_log; by destruct v. }
  unfold connectedCallback.
  by destruct (conversation (runs (ConnectedCallback v :: ms) constructor)).
Qed.

End GuidedMore.


(** ** More on the prompt panel *)

Module PromptMore.
Import Js JsFacts Prompt.

Lemma not_white_space (u : string) :
  all_white_space u = false → truthy (trim u) = true ∧ truthy u = true.
Proof.
  intros H. split.
  - apply truthy_true. intros E. apply trim_empty in E. congruence.
  - by destruct u.
Qed.

(** X19.  A click on Create Automation makes a creation call, with the
    trimmed text, exactly when the prompt is shown and the text has a
    character that is not white space, whether or not a call is already
    pending; in every other case it changes nothing. *)
Theorem click_calls (s : State) :
  (automationCreated s = false →
   all_white_space (userInput s) = false →
   click s
   = (set_isProcessing true s,
      [ CallService "ai_automation_creator" "create_automation"
          (Some (trim (userInput s))) ]))
  ∧ (automationCreated s = true ∨ all_white_space (userInput s) = true →
     click s = (s, [])).
Proof.
  unfold click, render, renderPrompt, createAutomation_begin. split.
  - intros -> Hws. destruct (not_white_space _ Hws) as [-> ->]. reflexivity.
  - intros [-> | Hws]; [reflexivity|].
    apply trim_empty in Hws. rewrite Hws.
    by destruct (automationCreated s), (truthy (userInput s)).
Qed.

Lemma click_calls_witness :
  click (set_isProcessing true typed)
  = (set_isProcessing true (set_isProcessing true typed),
     [ CallService "ai_automation_creator" "create_automation"
         (Some (trim (userInput (set_isProcessing true typed)))) ])
  ∧ click (set_userInput "  " typed) = (set_userInput "  " typed, []).
Proof.
  split.
  - apply (proj1 (click_calls (set_isProcessing true typed))); reflexivity.
  - apply (proj2 (click_calls (set_userInput "  " typed))). right. reflexivity.
Defined.

(** X20.  What the prompt panel shows after the creation call does not
    depend on the success notification in [hass.states]: both branches
    of the test set the same text. *)
Theorem notification_ignored (h : Host) (flag : bool) (s : State) :
  createAutomation
    {| create_automation := create_automation h; success_notification := flag;
       latest_automation := latest_automation h |} s
  = createAutomation h s.
Proof.
  unfold createAutomation. destruct (negb _); [done|].
  unfold createAutomation_begin. destruct (negb _); cbn [create_automation].
  - destruct (create_automation h _); [|done].
    unfold onCreated. cbn [success_notification latest_automation].
    by destruct flag, (success_notification h).
  - destruct (create_automation h _); [|done].
    unfold onCreated. cbn [success_notification latest_automation].
    by destruct flag, (success_notification h).
Qed.

Lemma trimEnd_idem (s : string) : trimEnd (trimEnd s) = trimEnd s.
Proof.
  induction s as [|c s IH]; [done|]. cbn [trimEnd].
  destruct (trimEnd s) as [|d k] eqn:E.
  - destruct (is_white_space c) eqn:Ec; [done|]. cbn [trimEnd]. by rewrite Ec.
  - cbn [trimEnd] in *. by rewrite IH.
Qed.

Lemma trimStart_head (s : string) :
  trimStart s = ""
  ∨ ∃ c r, trimStart s = String c r ∧ is_white_space c = false.
Proof.
  induction s as [|c s IH]; [by left|]. cbn [trimStart].
  destruct (is_white_space c) eqn:Ec; [done|]. right. by exists c, s.
Qed.

(** Nothing is left to strip at either end of a trimmed text. *)
Lemma trim_fixed (s : string) :
  trimStart (trim s) = trim s ∧ trimEnd (trim s) = trim s.
Proof.
  unfold trim. split; [|apply trimEnd_idem].
  destruct (trimStart_head s) as [->|(c & r & -> & Hc)]; [done|].
  cbn [trimEnd]. destruct (trimEnd r); rewrite ?Hc; cbn [trimStart]; by rewrite Hc.
Qed.

(** X21.  The description the prompt panel sends is the text with the
    white space at both ends removed: it is not empty and neither
    [trimStart] nor [trimEnd] would shorten it again. *)
Theorem createAutomation_trimmed (s : State) :
  trim (userInput s) ≠ "" →
  ∃ d,
    snd (createAutomation_begin s)
    = [ CallService "ai_automation_creator" "create_automation" (Some d) ]
    ∧ d = trim (userInput s)
    ∧ d ≠ ""
    ∧ trimStart d = d
    ∧ trimEnd d = d.
Proof.
  intros Hne. exists (trim (userInput s)).
  destruct (trim_fixed (userInput s)) as [Hs He].
  split_and!; try done.
  unfold createAutomation_begin. apply truthy_true in Hne. by rewrite Hne.
Qed.

Lemma createAutomation_trimmed_witness :
  ∃ d,
    snd (createAutomation_begin (set_userInput "  lights on  " constructor))
    = [ CallService "ai_automation_creator" "create_automation" (Some d) ]
    ∧ d = trim (userInput (set_userInput "  lights on  " constructor))
    ∧ d ≠ ""
    ∧ trimStart d = d
    ∧ trimEnd d = d.
Proof.
  apply (createAutomation_trimmed (set_userInput "  lights on  " constructor)).
  vm_compute. discriminate.
Defined.

(** X22.  After a submission of the prompt panel, however it ended,
    [startOver] gives back the fields of the constructor. *)
Theorem startOver_after_createAutomation_prompt (h : Host) (s : State) :
  trim (userInput s) ≠ "" →
  startOver (fst (createAutomation h s)) = constructor.
Proof.
  intros Hne. apply truthy_true in Hne.
  unfold createAutomation, createAutomation_begin. rewrite Hne. cbn [negb].
  cbn [userInput set_isProcessing].
  destruct (create_automation h _); [|reflexivity].
  unfold onCreated. by destruct (success_notification h).
Qed.

Lemma startOver_after_createAutomation_prompt_witness :
  startOver (fst (createAutomation Sessions.prompt_host typed)) = constructor.
Proof.
  apply (startOver_after_createAutomation_prompt Sessions.prompt_host typed).
  vm_compute. discriminate.
Defined.

End PromptMore.


(** ** The form panel *)

Module FormPanelFacts.
Import Js JsFacts Promise FormPanel.

Ltac run_form Hne :=
  unfold generateAutomation, generateAutomation_begin; rewrite Hne; cbn [negb];
  unfold listeners, onTimeout, onError, callGetYaml, catch, and_then, settle, emit, modify, get;
  cbn [snd fst component trace app Panel.userInput Panel.isProcessing Panel.automationYaml
       Panel.automationCreated Panel.errorMessage Panel.set_userInput Panel.set_isProcessing
       Panel.set_automationYaml Panel.set_automationCreated Panel.set_errorMessage].

(** X23.  When both service calls of the form panel resolve, the panel
    makes the creation call with the text as typed, then
    [get_automation_yaml] at once, then waits 500 ms and shows
    [hass.data.ai_automation_creator.latest_automation], or a fixed
    message when that is missing or empty; what the two calls resolved
    with plays no part. *)
Theorem generateAutomation_form (h : Host) (s : Panel.State) (r r1 : Result) :
  trim (Panel.userInput s) ≠ "" →
  create_automation h (Panel.userInput s) = Fulfilled r →
  get_automation_yaml h = Fulfilled r1 →
  generateAutomation h s
  = {| component :=
         {| Panel.userInput := Panel.userInput s;
            Panel.isProcessing := false;
            Panel.automationYaml := or_else (latest_automation h) fallback_yaml;
            Panel.automationCreated := true;
            Panel.errorMessage := None |};
       trace :=
         [ CallService "ai_automation_creator" "create_automation" (Some (Panel.userInput s));
           CallService "ai_automation_creator" "get_automation_yaml" None;
           SetTimeout 500 ] |}.
Proof.
  intros Hne Hc Hg. apply truthy_true in Hne.
  run_form Hne. rewrite Hc, Hg. reflexivity.
Qed.

Lemma generateAutomation_form_witness :
  generateAutomation Sessions.form_host Panel.typed
  = {| component :=
         {| Panel.userInput := Panel.userInput Panel.typed;
            Panel.isProcessing := false;
            Panel.automationYaml :=
              or_else (latest_automation Sessions.form_host) fallback_yaml;
            Panel.automationCreated := true;
            Panel.errorMessage := None |};
       trace :=
         [ CallService "ai_automation_creator" "create_automation"
             (Some (Panel.userInput Panel.typed));
           CallService "ai_automation_creator" "get_automation_yaml" None;
           SetTimeout 500 ] |}.
Proof.
  apply (generateAutomation_form Sessions.form_host Panel.typed None
           (Some {| yaml := Some "alias: ignored" |})).
  - vm_compute. discriminate.
  - reflexivity.
  - reflexivity.
Defined.

(** X24.  When one of the two service calls of the form panel is
    rejected, the panel sets the error message from the rejection, stops
    processing and stays on the form; no timer is set, and after a
    rejected creation call [get_automation_yaml] is not called. *)
Theorem generateAutomation_form_rejected (h : Host) (s : Panel.State) :
  trim (Panel.userInput s) ≠ "" →
  let failed e :=
    {| Panel.userInput := Panel.userInput s;
       Panel.isProcessing := false;
       Panel.automationYaml := Panel.automationYaml s;
       Panel.automationCreated := Panel.automationCreated s;
       Panel.errorMessage :=
         Some ("Error: " +:+ or_else (message e) "Failed to create automation") |} in
  (∀ e, create_automation h (Panel.userInput s) = Rejected e →
        generateAutomation h s
        = {| component := failed e;
             trace := [ CallService "ai_automation_creator" "create_automation"
                          (Some (Panel.userInput s)) ] |})
  ∧ (∀ r e, create_automation h (Panel.userInput s) = Fulfilled r →
            get_automation_yaml h = Rejected e →
            generateAutomation h s
            = {| component := failed e;
                 trace := [ CallService "ai_automation_creator" "create_automation"
                              (Some (Panel.userInput s));
                            CallService "ai_automation_creator" "get_automation_yaml"
                              None ] |}).
Proof.
  intros Hne failed. subst failed. apply truthy_true in Hne. split.
  - intros e Hc. run_form Hne. by rewrite Hc.
  - intros r e Hc Hg. run_form Hne. by rewrite Hc, Hg.
Qed.

Lemma generateAutomation_form_rejected_witness :
  Panel.errorMessage (component (generateAutomation Sessions.form_refusing_host Panel.typed))
    = Some "Error: quota exceeded"
  ∧ trace (generateAutomation Sessions.form_refusing_host Panel.typed)
    = [ CallService "ai_automation_creator" "create_automation"
          (Some (Panel.userInput Panel.typed)) ]
  ∧ Panel.errorMessage
      (component (generateAutomation Sessions.form_failing_fetch_host Panel.typed))
    = Some "Error: Failed to create automation"
  ∧ timeouts (trace (generateAutomation Sessions.form_failing_fetch_host Panel.typed)) = 0.
Proof.
  assert (trim (Panel.userInput Panel.typed) ≠ "") as Hne by (vm_compute; discriminate).
  destruct (generateAutomation_form_rejected Sessions.form_refusing_host Panel.typed Hne)
    as [H1 _].
  destruct (generateAutomation_form_rejected Sessions.form_failing_fetch_host Panel.typed Hne)
    as [_ H2].
  rewrite (H1 {| message := Some "quota exceeded" |} eq_refl).
  rewrite (H2 None {| message := None |} eq_refl eq_refl).
  split_and!; reflexivity.
Defined.

End FormPanelFacts.


(** ** The host object *)

Module ShellFacts.
Import Js Shell.

Lemma assign_step (h : option Panel.Host) (hs : list (option Panel.Host))
    (el : Element) (out : list Screen) :
  fold_left (λ acc hass, let '(e, o) := set_hass hass (fst acc) in (e, snd acc ++ o))
            (h :: hs) (el, out)
  = fold_left (λ acc hass, let '(e, o) := set_hass hass (fst acc) in (e, snd acc ++ o))
              hs (fst (set_hass h el), out ++ snd (set_hass h el)).
Proof. cbn [fold_left fst snd]. by destruct (set_hass h el). Qed.

Lemma assign_rendered (hs : list (option Panel.Host)) (el : Element) (out : list Screen) :
  _hasRendered el = true →
  fold_left (λ acc hass, let '(e, o) := set_hass hass (fst acc) in (e, snd acc ++ o))
            hs (el, out)
  = ({| _hass := default (_hass el) (last hs); _hasRendered := true; fields := fields el |},
     out).
Proof.
  revert el out. induction hs as [|h hs IH]; intros el out Hr.
  - cbn. destruct el as [a b c]. cbn in *. by subst b.
  - rewrite assign_step. unfold set_hass. cbn [_hasRendered]. rewrite Hr.
    cbn [negb fst snd]. rewrite IH by done. cbn [_hass fields].
    rewrite app_nil_r. f_equal. f_equal.
    destruct hs as [|h' hs]; [reflexivity|]. rewrite last_cons_cons.
    destruct (last (h' :: hs)) eqn:E; [reflexivity|]. by apply last_None in E.
Qed.

(** X25.  However many times the host assigns [hass], the setter renders
    once, at the first assignment: the screen is the loading message when
    that first value is null and the card otherwise, and it is not
    rendered again by later assignments, which are only stored. *)
Theorem assign_renders_once
    (h : option Panel.Host) (hs : list (option Panel.Host)) (el : Element) :
  _hasRendered el = false →
  assign (h :: hs) el
  = ({| _hass := default h (last hs); _hasRendered := true; fields := fields el |},
     [ match h with
       | None => Loading
       | Some _ => Card (Panel.view (fields el))
       end ]).
Proof.
  intros Hr. unfold assign. rewrite assign_step.
  unfold set_hass. cbn [_hasRendered]. rewrite Hr. cbn [negb app fst snd].
  rewrite assign_rendered by done. cbn [_hass fields]. unfold render. by destruct h.
Qed.

Lemma assign_renders_once_witness :
  assign [ None; Some Panel.eager_host ] constructor
  = ({| _hass := Some Panel.eager_host; _hasRendered := true; fields := Panel.constructor |},
     [ Loading ]).
Proof.
  apply (assign_renders_once None [ Some Panel.eager_host ] constructor). reflexivity.
Defined.

End ShellFacts.
